(** * gpio-buzzer: a shallow embedding of [gpio_buzzer/gpio-buzzer.c]

    The driver keeps one global [struct miscbuzzer_dev] and exposes it through
    a misc character device (open / write / release) and a sysfs attribute
    (show / store).  The embedding below follows the C text function by
    function.  Kernel services the driver calls (the spin lock, the GPIO
    layer, [copy_from_user], [kstrtoul], [sprintf], the device-tree lookups)
    are not part of the repository; they are modelled in [Module Kernel] and
    in the primitive actions of the monad [M], each with a note on the
    contract that is assumed. *)

From stdpp Require Import gmap.
From Stdlib Require Import ZArith String Ascii List Lia DecimalString.
From Stdlib.Strings Require Import Byte.
Import ListNotations.
Local Open Scope Z_scope.

(* ===================================================================== *)
(** ** Kernel services used by the driver                                 *)
(* ===================================================================== *)

Module Kernel.

(** errno values of [include/uapi/asm-generic/errno-base.h]. *)
Definition EFAULT : Z := 14.
Definition EBUSY  : Z := 16.
Definition EINVAL : Z := 22.
Definition ERANGE : Z := 34.

(** The driver includes [asm/mach/map.h], which only exists for 32-bit
    ARM: [int], [long], [size_t] and [ssize_t] are all 32 bits wide. *)
Definition INT_MAX   : Z := 2 ^ 31 - 1.
Definition ULONG_MAX : Z := 2 ^ 32 - 1.
Definition ULLONG_MAX : Z := 2 ^ 64 - 1.

(** Conversion of an integer to [int] / [ssize_t] (two's complement
    wrap-around), as in [retvalue = copy_from_user (...)] and
    [ret = size]. *)
Definition to_int (z : Z) : Z := (z + 2 ^ 31) mod 2 ^ 32 - 2 ^ 31.

(** Conversion to [unsigned int], as [sprintf ("%u")] reads its
    argument. *)
Definition to_uint (z : Z) : Z := z mod 2 ^ 32.

(** Value of an [unsigned char] after integer promotion. *)
Definition uchar (b : byte) : Z := Z.of_N (Byte.to_N b).

(** [copy_from_user (to, from, n)].  The user buffer is given by the bytes
    that can actually be read at [from] (an inaccessible pointer is the
    empty list).  The call copies as many of the [n] requested bytes as
    can be read, pads the destination with zero bytes up to [n], and
    returns the number of bytes that could NOT be copied (an
    [unsigned long], never negative).  Only the first destination byte is
    tracked: the driver's [databuf] has one element, whose previous
    content [to0] survives only when [n = 0]. *)
Definition copy_from_user (to0 : byte) (from : list byte) (n : Z)
  : Z * byte :=
  let copied := Z.min n (Z.of_nat (length from)) in
  (n - copied,
   if n <=? 0 then to0
   else match from with
        | b :: _ => b
        | [] => x00
        end).

(** Digit value of a character as [_parse_integer] computes it:
    ['0'..'9'] are 0..9, ['a'..'f'] and ['A'..'F'] are 10..15. *)
Definition digit_val (c : ascii) : option Z :=
  let n := Z.of_N (N_of_ascii c) in
  if (48 <=? n) && (n <=? 57) then Some (n - 48)
  else if (97 <=? n) && (n <=? 102) then Some (n - 97 + 10)
  else if (65 <=? n) && (n <=? 70) then Some (n - 65 + 10)
  else None.

(** [_parse_integer]: accumulates the longest prefix of digits below
    [base]; returns the value, the number of characters consumed and the
    rest of the text.  The value is accumulated without bound; the
    overflow flag of the C code is the test [ULLONG_MAX <? value] made by
    the caller. *)
Fixpoint _parse_integer (s : string) (base : Z) (res : Z) (rv : nat)
  : Z * nat * string :=
  match s with
  | EmptyString => (res, rv, s)
  | String c s' =>
      match digit_val c with
      | Some v =>
          if v <? base
          then _parse_integer s' base (res * base + v) (S rv)
          else (res, rv, s)
      | None => (res, rv, s)
      end
  end.

(** [kstrtoull] for an explicit base of 10 (no radix prefix is looked
    for): an optional ['+'], at least one digit, an optional single
    newline, then the end of the text.  The result is the return code and
    the value stored through [res] when the call succeeds. *)
Definition kstrtoull (s : string) (base : Z) : Z * option Z :=
  let s1 := match s with
            | String "+"%char r => r
            | _ => s
            end in
  match _parse_integer s1 base 0 0 with
  | (v, rv, rest) =>
      if ULLONG_MAX <? v then (- ERANGE, None)
      else match rv with
           | O => (- EINVAL, None)
           | S _ =>
               let rest' := match rest with
                            | String "010"%char r => r
                            | _ => rest
                            end in
               match rest' with
               | EmptyString => (0, Some v)
               | String _ _ => (- EINVAL, None)
               end
           end
  end.

(** [kstrtoul] on a machine whose [unsigned long] is narrower than
    [unsigned long long] ([_kstrtoul]): values that do not fit are
    rejected with [-ERANGE]. *)
Definition kstrtoul (s : string) (base : Z) : Z * option Z :=
  match kstrtoull s base with
  | (rv, Some tmp) =>
      if ULONG_MAX <? tmp then (- ERANGE, None) else (0, Some tmp)
  | (rv, None) => (rv, None)
  end.

(** [sprintf (buf, "%u\n", v)]: the text written and its length. *)
Definition sprintf_u_nl (v : Z) : Z * string :=
  let txt := (NilEmpty.string_of_uint (N.to_uint (Z.to_N (to_uint v)))
              ++ String "010"%char EmptyString)%string in
  (Z.of_nat (String.length txt), txt).

End Kernel.

Import Kernel.

(* ===================================================================== *)
(** ** Data model                                                         *)
(* ===================================================================== *)

(** The [#define]s at the top of the file. *)
Definition BUZZEROFF   : Z := 0.
Definition BUZZERON    : Z := 1.
Definition GPIO_OUTPUT : Z := 1.
Definition GPIO_INPUT  : Z := 0.
Definition GPIO_HIGH   : Z := 1.
Definition GPIO_LOW    : Z := 0.
Definition DEV_BUSY    : Z := 1.
Definition DEV_FREE    : Z := 0.

(** [struct miscbuzzer_dev].  The [device] back pointer is only handed to
    [dev_err] and is left out; [lock] is [true] while the spin lock is
    held. *)
Record miscbuzzer_dev : Type := MkDev {
  buzzer_gpio  : Z;
  buzzer_stats : Z;
  dev_stats    : Z;
  lock         : bool
}.

(** What an operation does that another CPU, the hardware or the console
    can observe, in program order. *)
Inductive event : Type :=
| EvLock
| EvUnlock
| EvGpioDirOut (gpio value : Z)
| EvGpioSet (gpio value : Z)
| EvBuzzerStats (v : Z)
| EvDevStats (v : Z)
| EvDevErr (msg : string).

(** The global [miscbuzzer], the output level of every GPIO line that has
    been driven, and the events emitted so far. *)
Record world : Type := MkWorld {
  miscbuzzer : miscbuzzer_dev;
  pins       : gmap Z Z;
  log        : list event
}.

(** A global object of static storage duration starts zeroed. *)
Definition miscbuzzer_zero : miscbuzzer_dev := MkDev 0 0 0 false.
Definition boot : world := MkWorld miscbuzzer_zero ∅ [].

(** Level of the buzzer's line, if it has been driven. *)
Definition line (w : world) : option Z :=
  pins w !! buzzer_gpio (miscbuzzer w).

(* ===================================================================== *)
(** ** The monad of driver code                                           *)
(* ===================================================================== *)

(** A driver function transforms the world and returns a value; [None]
    stands for a CPU spinning forever on a lock that is already held. *)
Definition M (A : Type) : Type := world -> option (A * world).

Definition Return {A : Type} (a : A) : M A := fun w => Some (a, w).

Definition Bind {A B : Type} (m : M A) (k : A -> M B) : M B :=
  fun w => match m w with
           | Some (a, w') => k a w'
           | None => None
           end.

Declare Scope driver_scope.
Delimit Scope driver_scope with drv.
Notation "'let*' x ':=' m 'in' k" := (Bind m (fun x => k))
  (at level 10, x name, m at level 100, k at level 200, only parsing)
  : driver_scope.
Notation "m ';;' k" := (Bind m (fun _ => k))
  (at level 100, k at level 200, right associativity, only parsing)
  : driver_scope.
Open Scope driver_scope.

Definition emit (e : event) : M unit :=
  fun w => Some (tt, MkWorld (miscbuzzer w) (pins w) (log w ++ [e])).

Definition load {A : Type} (field : miscbuzzer_dev -> A) : M A :=
  fun w => Some (field (miscbuzzer w), w).

Definition set_lock (b : bool) : M unit :=
  fun w => let d := miscbuzzer w in
           Some (tt, MkWorld (MkDev (buzzer_gpio d) (buzzer_stats d)
                                    (dev_stats d) b)
                             (pins w) (log w)).

(** [spin_lock_irqsave (&miscbuzzer.lock, flags)]. *)
Definition spin_lock_irqsave : M unit :=
  fun w => if lock (miscbuzzer w) then None
           else (set_lock true ;; emit EvLock) w.

(** [spin_unlock_irqrestore (&miscbuzzer.lock, flags)]. *)
Definition spin_unlock_irqrestore : M unit :=
  set_lock false ;; emit EvUnlock.

(** [spin_lock_init (&miscbuzzer.lock)]. *)
Definition spin_lock_init : M unit := set_lock false.

(** [miscbuzzer.buzzer_gpio = v]. *)
Definition store_buzzer_gpio (v : Z) : M unit :=
  fun w => let d := miscbuzzer w in
           Some (tt, MkWorld (MkDev v (buzzer_stats d) (dev_stats d) (lock d))
                             (pins w) (log w)).

(** [dev->buzzer_stats = v]. *)
Definition store_buzzer_stats (v : Z) : M unit :=
  fun w => let d := miscbuzzer w in
           Some (tt, MkWorld (MkDev (buzzer_gpio d) v (dev_stats d) (lock d))
                             (pins w) (log w ++ [EvBuzzerStats v])).

(** [dev->dev_stats = v]. *)
Definition store_dev_stats (v : Z) : M unit :=
  fun w => let d := miscbuzzer w in
           Some (tt, MkWorld (MkDev (buzzer_gpio d) (buzzer_stats d) v (lock d))
                             (pins w) (log w ++ [EvDevStats v])).

(** [gpio_set_value (gpio, value)]: the line takes the given level. *)
Definition gpio_set_value (gpio value : Z) : M unit :=
  fun w => Some (tt, MkWorld (miscbuzzer w) (<[gpio := value]> (pins w))
                             (log w ++ [EvGpioSet gpio value])).

(** [gpio_direction_output (gpio, value)]: on success (return code 0) the
    line becomes an output at the given level; a failing call (the code
    [rc] the GPIO layer answers with) leaves the line alone. *)
Definition gpio_direction_output (gpio value rc : Z) : M Z :=
  fun w => if rc =? 0
           then Some (rc, MkWorld (miscbuzzer w) (<[gpio := value]> (pins w))
                                  (log w ++ [EvGpioDirOut gpio value]))
           else Some (rc, w).

(** [dev_err (dev, msg)]: the message goes to the kernel log (its trailing
    newline is not recorded). *)
Definition dev_err (msg : string) : M unit := emit (EvDevErr msg).

(* ===================================================================== *)
(** ** The driver                                                         *)
(* ===================================================================== *)

(** [miscbuzzer_open].  [filp->private_data = &miscbuzzer] only records,
    in the file object, the address of the one global device. *)
Definition miscbuzzer_open : M Z :=
  spin_lock_irqsave ;;
  let* busy := load dev_stats in
  let* ret := (if busy =? DEV_BUSY
               then Return (- EBUSY)
               else (store_dev_stats DEV_BUSY ;; Return 0)) in
  spin_unlock_irqrestore ;;
  Return ret.

(** [miscbuzzer_write (filp, buf, cnt, offt)].  [buf] lists the bytes that
    can be read at the user pointer, [databuf0] is whatever the
    uninitialised [databuf[0]] holds on entry.  The embedding stands for
    the C function when [cnt] is 0 or 1: with a larger count the C code
    copies past the one-element [databuf], which is outside what is
    modelled (see [fits_databuf] below). *)
Definition miscbuzzer_write (buf : list byte) (cnt : Z) (databuf0 : byte)
  : M Z :=
  let '(not_copied, d0) := copy_from_user databuf0 buf cnt in
  let retvalue := to_int not_copied in
  if retvalue <? 0 then
    dev_err "miscbuzzer_write failed!" ;;
    Return (- EFAULT)
  else
    let buzzerstat := uchar d0 in
    (if buzzerstat =? BUZZERON then
       let* gpio := load buzzer_gpio in
       gpio_set_value gpio GPIO_LOW ;;
       store_buzzer_stats BUZZERON
     else if buzzerstat =? BUZZEROFF then
       let* gpio := load buzzer_gpio in
       gpio_set_value gpio GPIO_HIGH ;;
       store_buzzer_stats BUZZEROFF
     else Return tt) ;;
    Return 0.

(** [miscbuzzer_release]. *)
Definition miscbuzzer_release : M Z :=
  spin_lock_irqsave ;;
  let* busy := load dev_stats in
  (if busy =? DEV_BUSY then store_dev_stats DEV_FREE else Return tt) ;;
  spin_unlock_irqrestore ;;
  Return 0.

(** [buzzer_show]: the byte count returned and the text left in [buf]. *)
Definition buzzer_show : M (Z * string) :=
  let* stats := load buzzer_stats in
  Return (sprintf_u_nl stats).

(** [buzzer_store (dev, attr, buf, size)].  [state0] is whatever the
    uninitialised local [state] holds on entry; [kstrtoul] overwrites it
    only when it succeeds, and its return code is overwritten by
    [ret = size] before it is ever looked at. *)
Definition buzzer_store (buf : string) (size : Z) (state0 : Z) : M Z :=
  spin_lock_irqsave ;;
  let* busy := load dev_stats in
  let* ret :=
    (if busy =? DEV_BUSY
     then Return (- EBUSY)
     else
       (store_dev_stats DEV_BUSY ;;
        let state := match snd (kstrtoul buf 10) with
                     | Some v => v
                     | None => state0
                     end in
        (if state =? BUZZERON then
           let* gpio := load buzzer_gpio in
           gpio_set_value gpio GPIO_LOW ;;
           store_buzzer_stats BUZZERON
         else if state =? BUZZEROFF then
           let* gpio := load buzzer_gpio in
           gpio_set_value gpio GPIO_HIGH ;;
           store_buzzer_stats BUZZEROFF
         else Return tt) ;;
        store_dev_stats DEV_FREE ;;
        Return (to_int size))) in
  spin_unlock_irqrestore ;;
  Return ret.

(** What the platform answers to [gpio_buzzer_probe]: the result of
    [of_get_named_gpio], the return codes of [misc_register],
    [device_create_file] and [gpio_direction_output], and the
    ["default-state"] property when the node has one. *)
Record platform_device : Type := MkPdev {
  of_gpios               : Z;
  misc_register_rc       : Z;
  device_create_file_rc  : Z;
  gpio_direction_rc      : Z;
  of_default_state       : option string
}.

(** [gpio_buzzer_probe]. *)
Definition gpio_buzzer_probe (pdev : platform_device) : M Z :=
  store_buzzer_gpio (of_gpios pdev) ;;
  let* gpio := load buzzer_gpio in
  if gpio <? 0 then
    dev_err "failed get buzzer gpio!" ;; Return (- EINVAL)
  else if misc_register_rc pdev <? 0 then
    dev_err "misc device register failed!" ;; Return (- EFAULT)
  else if negb (device_create_file_rc pdev =? 0) then
    dev_err "Unable to create sysfs entry: 'buzz'" ;; Return (- EFAULT)
  else
    store_dev_stats DEV_FREE ;;
    spin_lock_init ;;
    let* ret := gpio_direction_output gpio GPIO_OUTPUT
                                      (gpio_direction_rc pdev) in
    if negb (ret =? 0) then
      dev_err "failed set buzzer gpio!" ;; Return (- EFAULT)
    else
      match of_default_state pdev with
      | Some state =>
          if String.eqb state "on"
          then gpio_set_value gpio GPIO_LOW
          else gpio_set_value gpio GPIO_HIGH
      | None => Return tt
      end ;;
      Return ret.

(** [gpio_buzzer_remove]. *)
Definition gpio_buzzer_remove : M Z :=
  let* gpio := load buzzer_gpio in
  gpio_set_value gpio GPIO_HIGH ;;
  store_buzzer_stats BUZZEROFF ;;
  Return 0.

(* ===================================================================== *)
(** ** Sequences of calls and what they leave in the log                  *)
(* ===================================================================== *)

(** The entry points user space can reach: the three file operations and
    the two attribute operations, with their arguments. *)
Inductive call : Type :=
| CallOpen
| CallWrite (buf : list byte) (cnt : Z) (databuf0 : byte)
| CallRelease
| CallShow
| CallStore (buf : string) (size : Z) (state0 : Z).

(** The integer each entry point returns to its caller. *)
Definition exec (c : call) : M Z :=
  match c with
  | CallOpen => miscbuzzer_open
  | CallWrite buf cnt databuf0 => miscbuzzer_write buf cnt databuf0
  | CallRelease => miscbuzzer_release
  | CallShow => let* r := buzzer_show in Return (fst r)
  | CallStore buf size state0 => buzzer_store buf size state0
  end.

(** A call stays within what the embedding covers: [unsigned char
    databuf[1]] holds one byte, so a write must ask for at most one (a
    larger [cnt] makes [copy_from_user] run past the end of [databuf]).
    The other entry points have no such bound. *)
Definition fits_databuf (c : call) : bool :=
  match c with
  | CallWrite _ cnt _ => (0 <=? cnt) && (cnt <=? 1)
  | _ => true
  end.

(** Calls made one after the other, with the list of their results. *)
Fixpoint run (cs : list call) : M (list Z) :=
  match cs with
  | [] => Return []
  | c :: cs' =>
      let* r := exec c in
      let* rs := run cs' in
      Return (r :: rs)
  end.

(** A history of calls and results respects the exclusive session when,
    with [held] telling whether a session is open: an open made while one
    is held answers [-EBUSY]; an open made while none is held answers 0 and
    holds the session from then on; a release ends the session. *)
Fixpoint session_discipline (held : bool) (h : list (call * Z)) : bool :=
  match h with
  | [] => true
  | (CallOpen, r) :: h' =>
      if held then (r =? - EBUSY) && session_discipline true h'
      else (r =? 0) && session_discipline true h'
  | (CallRelease, _) :: h' => session_discipline false h'
  | (_, _) :: h' => session_discipline held h'
  end.

(** Number of sessions opened with success and not released yet. *)
Fixpoint outstanding (n : nat) (h : list (call * Z)) : nat :=
  match h with
  | [] => n
  | (CallOpen, r) :: h' => outstanding (if r =? 0 then S n else n) h'
  | (CallRelease, _) :: h' => outstanding (Nat.pred n) h'
  | (_, _) :: h' => outstanding n h'
  end.

(** The events an operation appended to the log. *)
Definition emitted (w w' : world) : list event :=
  skipn (length (log w)) (log w').

(** Events that change the shared state: the line level, [buzzer_stats],
    [dev_stats]. *)
Definition mutation (e : event) : bool :=
  match e with
  | EvGpioSet _ _ | EvBuzzerStats _ | EvDevStats _ => true
  | _ => false
  end.

(** Every mutation of the event list happens between a lock and the
    following unlock ([held] tells whether the lock is held at the start). *)
Fixpoint in_critical_section (held : bool) (es : list event) : bool :=
  match es with
  | [] => true
  | EvLock :: es' => in_critical_section true es'
  | EvUnlock :: es' => in_critical_section false es'
  | e :: es' => (negb (mutation e) || held) && in_critical_section held es'
  end.

(** The event list never touches the lock. *)
Definition lock_free (es : list event) : bool :=
  forallb (fun e => match e with
                    | EvLock | EvUnlock => false
                    | _ => true
                    end) es.

(** The level that goes with a value of [buzzer_stats]: ON is low, OFF is
    high. *)
Definition level_of (stats : Z) : Z :=
  if stats =? BUZZERON then GPIO_LOW else GPIO_HIGH.

(** Every change of [buzzer_stats] directly follows the write of the
    matching level to line [gpio], and no level is written without the
    change of [buzzer_stats] that goes with it. *)
Fixpoint committed_together (gpio : Z) (es : list event) : bool :=
  match es with
  | [] => true
  | EvGpioSet g v :: es' =>
      match es' with
      | EvBuzzerStats s :: es'' =>
          (g =? gpio) && (v =? level_of s) && committed_together gpio es''
      | _ => false
      end
  | EvBuzzerStats _ :: _ => false
  | _ :: es' => committed_together gpio es'
  end.

(* ===================================================================== *)
(** ** Basic facts                                                        *)
(* ===================================================================== *)

(** Unfolds the driver's primitive actions and the monad. *)
Ltac unfold_prims :=
  unfold spin_lock_irqsave, spin_unlock_irqrestore, spin_lock_init,
    store_dev_stats, store_buzzer_stats, store_buzzer_gpio, gpio_set_value,
    gpio_direction_output, dev_err, set_lock, emit, load, Bind, Return in *.

(** Splits a world into its fields. *)
Ltac open_world w :=
  let g := fresh "gpio" in
  let s := fresh "stats" in
  let d := fresh "busy" in
  let l := fresh "lk" in
  let p := fresh "pn" in
  let e := fresh "evs" in
  destruct w as [[g s d l] p e]; cbn [miscbuzzer pins log buzzer_gpio
    buzzer_stats dev_stats lock] in *.

(** Reduces the projections of explicit records. *)
Ltac fields :=
  cbn [miscbuzzer pins log buzzer_gpio buzzer_stats dev_stats lock fst snd]
    in *.

Lemma to_int_small (z : Z) : 0 <= z <= INT_MAX -> to_int z = z.
Proof.
  unfold to_int, INT_MAX. intros Hz.
  rewrite Z.mod_small by lia. lia.
Qed.

Lemma to_int_nonneg (z : Z) : 0 <= z <= INT_MAX -> (to_int z <? 0) = false.
Proof.
  intros Hz. rewrite to_int_small by exact Hz. apply Z.ltb_ge. lia.
Qed.

Lemma uchar_range (b : byte) : 0 <= uchar b <= 255.
Proof.
  unfold uchar. pose proof (Byte.to_N_bounded b). lia.
Qed.

Lemma skipn_length_app {A : Type} (l es : list A) :
  skipn (length l) (l ++ es) = es.
Proof.
  induction l as [|x l IH]; [reflexivity | exact IH].
Qed.

Lemma emitted_app (d d' : miscbuzzer_dev) (p p' : gmap Z Z)
  (l es : list event) :
  emitted (MkWorld d p l) (MkWorld d' p' (l ++ es)) = es.
Proof.
  unfold emitted; cbn [log]. apply skipn_length_app.
Qed.

Lemma emitted_nil (d d' : miscbuzzer_dev) (p p' : gmap Z Z)
  (l : list event) :
  emitted (MkWorld d p l) (MkWorld d' p' l) = [].
Proof.
  rewrite <- (app_nil_r l) at 2. apply emitted_app.
Qed.

(** [kstrtoul] stores a value exactly when it returns 0; otherwise its
    return code is negative and nothing is stored. *)
Lemma kstrtoul_code (s : string) (base : Z) :
  (fst (kstrtoul s base) = 0 /\ exists v, snd (kstrtoul s base) = Some v)
  \/ (fst (kstrtoul s base) < 0 /\ snd (kstrtoul s base) = None).
Proof.
  assert (Hneg : forall e : Z, 0 < e ->
            fst (- e, @None Z) < 0 /\ snd (- e, @None Z) = None)
    by (intros e He; cbn; split; [lia | reflexivity]).
  assert (Hr : 0 < ERANGE) by (unfold ERANGE; lia).
  assert (Hi : 0 < EINVAL) by (unfold EINVAL; lia).
  unfold kstrtoul, kstrtoull.
  destruct (_parse_integer _ base 0 0) as [[v rv] rest].
  destruct (ULLONG_MAX <? v); [right; auto |].
  destruct rv as [|rv]; [right; auto |].
  assert (Hend :
            (fst (if ULONG_MAX <? v then (- ERANGE, @None Z)
                  else (0, Some v)) = 0
             /\ exists v', snd (if ULONG_MAX <? v then (- ERANGE, @None Z)
                                else (0, Some v)) = Some v')
            \/ (fst (if ULONG_MAX <? v then (- ERANGE, @None Z)
                     else (0, Some v)) < 0
                /\ snd (if ULONG_MAX <? v then (- ERANGE, @None Z)
                        else (0, Some v)) = None)).
  { destruct (ULONG_MAX <? v); [right; auto |].
    left; split; [reflexivity | eexists; reflexivity]. }
  destruct rest as [|c r]; [exact Hend |].
  destruct c as [[] [] [] [] [] [] [] []];
    try (right; apply Hneg; exact Hi).
  destruct r; [exact Hend | right; auto].
Qed.

Lemma kstrtoul_fails (s : string) (base : Z) :
  fst (kstrtoul s base) <> 0 -> snd (kstrtoul s base) = None.
Proof.
  destruct (kstrtoul_code s base) as [[H0 _] | [_ Hn]]; [congruence | auto].
Qed.

(* ===================================================================== *)
(** ** Equations of the entry points                                      *)
(* ===================================================================== *)

Section Equations.

Variables (gpio stats busy : Z) (pn : gmap Z Z) (evs : list event).

(** The world before each call is
    [MkWorld (MkDev gpio stats busy false) pn evs]: the lock is free. *)

Lemma miscbuzzer_open_busy :
  busy = DEV_BUSY ->
  miscbuzzer_open (MkWorld (MkDev gpio stats busy false) pn evs)
  = Some (- EBUSY, MkWorld (MkDev gpio stats busy false) pn
                           (evs ++ [EvLock; EvUnlock])).
Proof.
  intros ->. unfold miscbuzzer_open. unfold_prims. cbn.
  rewrite <- !app_assoc. reflexivity.
Qed.

Lemma miscbuzzer_open_free :
  busy <> DEV_BUSY ->
  miscbuzzer_open (MkWorld (MkDev gpio stats busy false) pn evs)
  = Some (0, MkWorld (MkDev gpio stats DEV_BUSY false) pn
                     (evs ++ [EvLock; EvDevStats DEV_BUSY; EvUnlock])).
Proof.
  intros Hb. apply Z.eqb_neq in Hb.
  unfold miscbuzzer_open. unfold_prims. cbn. rewrite Hb. cbn.
  rewrite <- !app_assoc. reflexivity.
Qed.

Lemma miscbuzzer_release_busy :
  busy = DEV_BUSY ->
  miscbuzzer_release (MkWorld (MkDev gpio stats busy false) pn evs)
  = Some (0, MkWorld (MkDev gpio stats DEV_FREE false) pn
                     (evs ++ [EvLock; EvDevStats DEV_FREE; EvUnlock])).
Proof.
  intros ->. unfold miscbuzzer_release. unfold_prims. cbn.
  rewrite <- !app_assoc. reflexivity.
Qed.

Lemma miscbuzzer_release_free :
  busy <> DEV_BUSY ->
  miscbuzzer_release (MkWorld (MkDev gpio stats busy false) pn evs)
  = Some (0, MkWorld (MkDev gpio stats busy false) pn
                     (evs ++ [EvLock; EvUnlock])).
Proof.
  intros Hb. apply Z.eqb_neq in Hb.
  unfold miscbuzzer_release. unfold_prims. cbn. rewrite Hb. cbn.
  rewrite <- !app_assoc. reflexivity.
Qed.

Lemma buzzer_store_busy (buf : string) (size state0 : Z) :
  busy = DEV_BUSY ->
  buzzer_store buf size state0 (MkWorld (MkDev gpio stats busy false) pn evs)
  = Some (- EBUSY, MkWorld (MkDev gpio stats busy false) pn
                           (evs ++ [EvLock; EvUnlock])).
Proof.
  intros ->. unfold buzzer_store. unfold_prims. cbn.
  rewrite <- !app_assoc. reflexivity.
Qed.

(** In the next three lemmas the [match] is the value the local [state]
    holds after the call to [kstrtoul]. *)

Lemma buzzer_store_on (buf : string) (size state0 : Z) :
  busy <> DEV_BUSY ->
  match snd (kstrtoul buf 10) with
  | Some v => v
  | None => state0
  end = BUZZERON ->
  buzzer_store buf size state0 (MkWorld (MkDev gpio stats busy false) pn evs)
  = Some (to_int size,
          MkWorld (MkDev gpio BUZZERON DEV_FREE false)
                  (<[gpio := GPIO_LOW]> pn)
                  (evs ++ [EvLock; EvDevStats DEV_BUSY;
                           EvGpioSet gpio GPIO_LOW; EvBuzzerStats BUZZERON;
                           EvDevStats DEV_FREE; EvUnlock])).
Proof.
  intros Hb Hp. apply Z.eqb_neq in Hb.
  unfold buzzer_store. unfold_prims. cbn. rewrite Hb, Hp. cbn.
  rewrite <- !app_assoc. reflexivity.
Qed.

Lemma buzzer_store_off (buf : string) (size state0 : Z) :
  busy <> DEV_BUSY ->
  match snd (kstrtoul buf 10) with
  | Some v => v
  | None => state0
  end = BUZZEROFF ->
  buzzer_store buf size state0 (MkWorld (MkDev gpio stats busy false) pn evs)
  = Some (to_int size,
          MkWorld (MkDev gpio BUZZEROFF DEV_FREE false)
                  (<[gpio := GPIO_HIGH]> pn)
                  (evs ++ [EvLock; EvDevStats DEV_BUSY;
                           EvGpioSet gpio GPIO_HIGH; EvBuzzerStats BUZZEROFF;
                           EvDevStats DEV_FREE; EvUnlock])).
Proof.
  intros Hb Hp. apply Z.eqb_neq in Hb.
  unfold buzzer_store. unfold_prims. cbn. rewrite Hb, Hp. cbn.
  rewrite <- !app_assoc. reflexivity.
Qed.

Lemma buzzer_store_other (buf : string) (size state0 : Z) :
  busy <> DEV_BUSY ->
  match snd (kstrtoul buf 10) with
  | Some v => v
  | None => state0
  end <> BUZZERON ->
  match snd (kstrtoul buf 10) with
  | Some v => v
  | None => state0
  end <> BUZZEROFF ->
  buzzer_store buf size state0 (MkWorld (MkDev gpio stats busy false) pn evs)
  = Some (to_int size,
          MkWorld (MkDev gpio stats DEV_FREE false) pn
                  (evs ++ [EvLock; EvDevStats DEV_BUSY;
                           EvDevStats DEV_FREE; EvUnlock])).
Proof.
  intros Hb H1 H0. apply Z.eqb_neq in Hb, H1, H0.
  unfold buzzer_store. unfold_prims. cbn. rewrite Hb. cbn.
  rewrite H1, H0. cbn.
  rewrite <- !app_assoc. reflexivity.
Qed.

End Equations.

Section WriteEquations.

Variables (gpio stats busy : Z) (lk : bool) (pn : gmap Z Z)
          (evs : list event).
Variables (buf : list byte) (cnt : Z) (databuf0 : byte).

(** The world before each call is
    [MkWorld (MkDev gpio stats busy lk) pn evs]; the first component of
    what [copy_from_user] answers is the count of bytes not copied, the
    second is [databuf[0]]. *)

Lemma miscbuzzer_write_fault :
  to_int (fst (copy_from_user databuf0 buf cnt)) < 0 ->
  miscbuzzer_write buf cnt databuf0 (MkWorld (MkDev gpio stats busy lk) pn evs)
  = Some (- EFAULT,
          MkWorld (MkDev gpio stats busy lk) pn
                  (evs ++ [EvDevErr "miscbuzzer_write failed!"])).
Proof.
  intros Hn. apply Z.ltb_lt in Hn.
  unfold miscbuzzer_write.
  destruct (copy_from_user databuf0 buf cnt) as [n d0]; cbn in Hn.
  rewrite Hn. unfold_prims. reflexivity.
Qed.

Lemma miscbuzzer_write_on :
  0 <= to_int (fst (copy_from_user databuf0 buf cnt)) ->
  uchar (snd (copy_from_user databuf0 buf cnt)) = BUZZERON ->
  miscbuzzer_write buf cnt databuf0 (MkWorld (MkDev gpio stats busy lk) pn evs)
  = Some (0, MkWorld (MkDev gpio BUZZERON busy lk)
                     (<[gpio := GPIO_LOW]> pn)
                     (evs ++ [EvGpioSet gpio GPIO_LOW;
                              EvBuzzerStats BUZZERON])).
Proof.
  intros Hn Hb. apply Z.ltb_ge in Hn. unfold miscbuzzer_write.
  destruct (copy_from_user databuf0 buf cnt) as [n d0]; cbn in Hn, Hb.
  rewrite Hn, Hb. unfold_prims. cbn.
  rewrite <- !app_assoc. reflexivity.
Qed.

Lemma miscbuzzer_write_off :
  0 <= to_int (fst (copy_from_user databuf0 buf cnt)) ->
  uchar (snd (copy_from_user databuf0 buf cnt)) = BUZZEROFF ->
  miscbuzzer_write buf cnt databuf0 (MkWorld (MkDev gpio stats busy lk) pn evs)
  = Some (0, MkWorld (MkDev gpio BUZZEROFF busy lk)
                     (<[gpio := GPIO_HIGH]> pn)
                     (evs ++ [EvGpioSet gpio GPIO_HIGH;
                              EvBuzzerStats BUZZEROFF])).
Proof.
  intros Hn Hb. apply Z.ltb_ge in Hn. unfold miscbuzzer_write.
  destruct (copy_from_user databuf0 buf cnt) as [n d0]; cbn in Hn, Hb.
  rewrite Hn, Hb. unfold_prims. cbn.
  rewrite <- !app_assoc. reflexivity.
Qed.

Lemma miscbuzzer_write_other :
  0 <= to_int (fst (copy_from_user databuf0 buf cnt)) ->
  uchar (snd (copy_from_user databuf0 buf cnt)) <> BUZZERON ->
  uchar (snd (copy_from_user databuf0 buf cnt)) <> BUZZEROFF ->
  miscbuzzer_write buf cnt databuf0 (MkWorld (MkDev gpio stats busy lk) pn evs)
  = Some (0, MkWorld (MkDev gpio stats busy lk) pn evs).
Proof.
  intros Hn H1 H0. apply Z.ltb_ge in Hn. apply Z.eqb_neq in H1, H0.
  unfold miscbuzzer_write.
  destruct (copy_from_user databuf0 buf cnt) as [n d0]; cbn in Hn, H1, H0.
  rewrite Hn, H1, H0. unfold_prims. reflexivity.
Qed.

End WriteEquations.

(** Whatever it is given, [miscbuzzer_write] returns; it leaves
    [buzzer_gpio], [dev_stats] and the lock alone, takes no lock, and
    either changes nothing or writes one level followed by the matching
    [buzzer_stats]. *)
Lemma miscbuzzer_write_total (w : world) (buf : list byte) (cnt : Z)
  (databuf0 : byte) :
  exists r w',
    miscbuzzer_write buf cnt databuf0 w = Some (r, w')
    /\ buzzer_gpio (miscbuzzer w') = buzzer_gpio (miscbuzzer w)
    /\ dev_stats (miscbuzzer w') = dev_stats (miscbuzzer w)
    /\ lock (miscbuzzer w') = lock (miscbuzzer w)
    /\ lock_free (emitted w w') = true
    /\ committed_together (buzzer_gpio (miscbuzzer w)) (emitted w w') = true.
Proof.
  open_world w.
  destruct (Z_lt_le_dec (to_int (fst (copy_from_user databuf0 buf cnt))) 0)
    as [Hf | Hok].
  - rewrite miscbuzzer_write_fault by exact Hf.
    do 2 eexists; split; [reflexivity |]. fields. rewrite emitted_app.
    repeat split; reflexivity.
  - destruct (Z.eq_dec (uchar (snd (copy_from_user databuf0 buf cnt)))
                BUZZERON) as [H1 | H1];
      [| destruct (Z.eq_dec (uchar (snd (copy_from_user databuf0 buf cnt)))
                     BUZZEROFF) as [H0 | H0]].
    + rewrite miscbuzzer_write_on by assumption.
      do 2 eexists; split; [reflexivity |]. fields. rewrite emitted_app.
      cbn. rewrite Z.eqb_refl. repeat split; reflexivity.
    + rewrite miscbuzzer_write_off by assumption.
      do 2 eexists; split; [reflexivity |]. fields. rewrite emitted_app.
      cbn. rewrite Z.eqb_refl. repeat split; reflexivity.
    + rewrite miscbuzzer_write_other by assumption.
      do 2 eexists; split; [reflexivity |]. fields. rewrite emitted_nil.
      repeat split; reflexivity.
Qed.

(** With the lock free, [buzzer_store] returns and leaves the lock free;
    [buzzer_gpio] is untouched; a busy device stays busy, any other ends
    free; every mutation sits inside the critical section, each level write
    directly followed by the matching [buzzer_stats]. *)
Lemma buzzer_store_total (w : world) (buf : string) (size state0 : Z) :
  lock (miscbuzzer w) = false ->
  exists r w',
    buzzer_store buf size state0 w = Some (r, w')
    /\ buzzer_gpio (miscbuzzer w') = buzzer_gpio (miscbuzzer w)
    /\ dev_stats (miscbuzzer w')
       = (if dev_stats (miscbuzzer w) =? DEV_BUSY then DEV_BUSY else DEV_FREE)
    /\ lock (miscbuzzer w') = false
    /\ in_critical_section false (emitted w w') = true
    /\ committed_together (buzzer_gpio (miscbuzzer w)) (emitted w w') = true.
Proof.
  open_world w. intros ->.
  destruct (Z.eq_dec busy DEV_BUSY) as [Hb | Hb].
  - rewrite buzzer_store_busy by exact Hb.
    do 2 eexists; split; [reflexivity |]. fields. rewrite emitted_app.
    subst busy. repeat split; reflexivity.
  - pose proof Hb as Hb'. apply Z.eqb_neq in Hb'. rewrite Hb'.
    set (state := match snd (kstrtoul buf 10) with
                  | Some v => v
                  | None => state0
                  end).
    destruct (Z.eq_dec state BUZZERON) as [H1 | H1];
      [| destruct (Z.eq_dec state BUZZEROFF) as [H0 | H0]].
    + rewrite buzzer_store_on by assumption.
      do 2 eexists; split; [reflexivity |]. fields. rewrite emitted_app.
      cbn. rewrite Z.eqb_refl. repeat split; reflexivity.
    + rewrite buzzer_store_off by assumption.
      do 2 eexists; split; [reflexivity |]. fields. rewrite emitted_app.
      cbn. rewrite Z.eqb_refl. repeat split; reflexivity.
    + rewrite buzzer_store_other by assumption.
      do 2 eexists; split; [reflexivity |]. fields. rewrite emitted_app.
      repeat split; reflexivity.
Qed.

Lemma uchar_inj (b b' : byte) : uchar b = uchar b' -> b = b'.
Proof.
  unfold uchar. intros H. apply N2Z.inj in H.
  pose proof (Byte.of_to_N b) as Hb. rewrite H, Byte.of_to_N in Hb.
  congruence.
Qed.

Lemma uchar_on (b : byte) : uchar b = BUZZERON <-> b = x01.
Proof.
  split; [intros H; apply uchar_inj; exact H | intros ->; reflexivity].
Qed.

Lemma uchar_off (b : byte) : uchar b = BUZZEROFF <-> b = x00.
Proof.
  split; [intros H; apply uchar_inj; exact H | intros ->; reflexivity].
Qed.

(** A one-byte write from a readable buffer: nothing is left uncopied and
    [databuf[0]] is the byte written. *)
Lemma copy_one_byte (databuf0 b : byte) (rest : list byte) :
  copy_from_user databuf0 (b :: rest) 1 = (0, b).
Proof.
  unfold copy_from_user. cbn [length]. rewrite Z.min_l by lia.
  reflexivity.
Qed.

(* ===================================================================== *)
(** ** The session interface                                              *)
(* ===================================================================== *)

(** C1.  A one-byte session write whose byte can be read always returns 0.
    If the byte is 1 the buzzer's line is driven low and [buzzer_stats]
    becomes ON; if it is 0 the line is driven high and [buzzer_stats]
    becomes OFF; for any other byte nothing changes at all: the device
    record, every line and the log are as before.  [dev_stats], the lock
    and [buzzer_gpio] are never touched. *)
Theorem miscbuzzer_write_byte (w : world) (b : byte) (rest : list byte)
  (databuf0 : byte) :
  exists w',
    miscbuzzer_write (b :: rest) 1 databuf0 w = Some (0, w')
    /\ buzzer_gpio (miscbuzzer w') = buzzer_gpio (miscbuzzer w)
    /\ dev_stats (miscbuzzer w') = dev_stats (miscbuzzer w)
    /\ lock (miscbuzzer w') = lock (miscbuzzer w)
    /\ (b = x01 ->
        line w' = Some GPIO_LOW /\ buzzer_stats (miscbuzzer w') = BUZZERON)
    /\ (b = x00 ->
        line w' = Some GPIO_HIGH /\ buzzer_stats (miscbuzzer w') = BUZZEROFF)
    /\ (b <> x01 -> b <> x00 -> w' = w).
Proof.
  open_world w.
  assert (Hn : 0 <= to_int (fst (copy_from_user databuf0 (b :: rest) 1)))
    by (rewrite copy_one_byte; cbn [fst];
        rewrite to_int_small; unfold INT_MAX; lia).
  assert (Hd : uchar (snd (copy_from_user databuf0 (b :: rest) 1)) = uchar b)
    by (rewrite copy_one_byte; reflexivity).
  destruct (Byte.byte_eq_dec b x01) as [H1 | H1];
    [| destruct (Byte.byte_eq_dec b x00) as [H0 | H0]].
  - rewrite miscbuzzer_write_on
      by first [exact Hn | rewrite Hd; apply uchar_on; exact H1].
    eexists; split; [reflexivity |]. unfold line. fields.
    repeat split; try reflexivity; try (subst b; discriminate);
      try congruence.
    apply lookup_insert_eq.
  - rewrite miscbuzzer_write_off
      by first [exact Hn | rewrite Hd; apply uchar_off; exact H0].
    eexists; split; [reflexivity |]. unfold line. fields.
    repeat split; try reflexivity; try (subst b; discriminate);
      try congruence.
    apply lookup_insert_eq.
  - rewrite miscbuzzer_write_other
      by first [ exact Hn
               | rewrite Hd, uchar_on; assumption
               | rewrite Hd, uchar_off; assumption ].
    eexists; split; [reflexivity |]. unfold line. fields.
    repeat split; try reflexivity; intros; contradiction.
Qed.

(** C8.  With the spin lock free, [miscbuzzer_release] always returns 0.
    A busy device becomes free and in every case the device is not busy
    afterwards; [buzzer_stats], [buzzer_gpio] and all lines are unchanged.
    A second release right after the first returns 0 again and changes
    neither the device record nor any line. *)
Theorem miscbuzzer_release_frees (w : world) :
  lock (miscbuzzer w) = false ->
  exists w' w'',
    miscbuzzer_release w = Some (0, w')
    /\ (dev_stats (miscbuzzer w) = DEV_BUSY ->
        dev_stats (miscbuzzer w') = DEV_FREE)
    /\ (dev_stats (miscbuzzer w) <> DEV_BUSY ->
        dev_stats (miscbuzzer w') = dev_stats (miscbuzzer w))
    /\ buzzer_stats (miscbuzzer w') = buzzer_stats (miscbuzzer w)
    /\ buzzer_gpio (miscbuzzer w') = buzzer_gpio (miscbuzzer w)
    /\ lock (miscbuzzer w') = false
    /\ pins w' = pins w
    /\ miscbuzzer_release w' = Some (0, w'')
    /\ miscbuzzer w'' = miscbuzzer w'
    /\ pins w'' = pins w'.
Proof.
  open_world w. intros ->.
  destruct (Z.eq_dec busy DEV_BUSY) as [Hb | Hb].
  - rewrite miscbuzzer_release_busy by exact Hb.
    do 2 eexists; split; [reflexivity |]. fields.
    rewrite miscbuzzer_release_free by (unfold DEV_FREE, DEV_BUSY; lia).
    repeat split; try reflexivity. intros; contradiction.
  - rewrite miscbuzzer_release_free by exact Hb.
    do 2 eexists; split; [reflexivity |]. fields.
    rewrite miscbuzzer_release_free by exact Hb.
    repeat split; try reflexivity. intros; contradiction.
Qed.

(** One call made with the lock free returns with the lock free.  With
    [held] telling whether [dev_stats] is busy: an open answers [-EBUSY]
    when held and 0 otherwise and leaves the device busy; a release leaves
    it free; the other calls leave [dev_stats] as it was. *)
Lemma exec_step (c : call) (held : bool) (w : world) :
  lock (miscbuzzer w) = false ->
  dev_stats (miscbuzzer w) = (if held then DEV_BUSY else DEV_FREE) ->
  exists r w',
    exec c w = Some (r, w')
    /\ lock (miscbuzzer w') = false
    /\ dev_stats (miscbuzzer w')
       = (if match c with
             | CallOpen => true
             | CallRelease => false
             | _ => held
             end then DEV_BUSY else DEV_FREE)
    /\ match c with
       | CallOpen => r = (if held then - EBUSY else 0)
       | _ => True
       end.
Proof.
  intros Hl Hd. destruct c as [| buf cnt d0 | | | buf size state0];
    cbn [exec].
  - open_world w. subst lk busy. destruct held.
    + rewrite miscbuzzer_open_busy by reflexivity.
      do 2 eexists; split; [reflexivity |]. fields. auto.
    + rewrite miscbuzzer_open_free by (unfold DEV_FREE, DEV_BUSY; lia).
      do 2 eexists; split; [reflexivity |]. fields. auto.
  - destruct (miscbuzzer_write_total w buf cnt d0)
      as (r & w' & -> & _ & Hd' & Hl' & _).
    exists r, w'. rewrite Hl', Hd'. auto.
  - open_world w. subst lk busy. destruct held.
    + rewrite miscbuzzer_release_busy by reflexivity.
      do 2 eexists; split; [reflexivity |]. fields. auto.
    + rewrite miscbuzzer_release_free by (unfold DEV_FREE, DEV_BUSY; lia).
      do 2 eexists; split; [reflexivity |]. fields. auto.
  - unfold buzzer_show. unfold_prims.
    do 2 eexists; split; [reflexivity |]. auto.
  - destruct (buzzer_store_total w buf size state0 Hl)
      as (r & w' & -> & _ & Hd' & Hl' & _).
    exists r, w'. rewrite Hl', Hd', Hd.
    destruct held; auto.
Qed.

(** Any sequence of calls started with the lock free runs to its end, and
    its history respects the exclusive session. *)
Lemma run_discipline (cs : list call) :
  forall (held : bool) (w : world),
    lock (miscbuzzer w) = false ->
    dev_stats (miscbuzzer w) = (if held then DEV_BUSY else DEV_FREE) ->
    exists rs w',
      run cs w = Some (rs, w')
      /\ session_discipline held (combine cs rs) = true
      /\ (outstanding (if held then 1 else 0) (combine cs rs) <= 1)%nat
      /\ lock (miscbuzzer w') = false
      /\ (dev_stats (miscbuzzer w') = DEV_FREE
          \/ dev_stats (miscbuzzer w') = DEV_BUSY).
Proof.
  induction cs as [| c cs IH]; intros held w Hl Hd.
  - exists [], w. cbn. repeat split; auto.
    + destruct held; lia.
    + destruct held; auto.
  - destruct (exec_step c held w Hl Hd) as (r & w1 & He & Hl1 & Hd1 & Hr).
    destruct (IH _ w1 Hl1 Hd1) as (rs & w' & Hrun & Hs & Ho & Hl' & Hd').
    exists (r :: rs), w'. split.
    + cbn [run]. unfold Bind at 1. rewrite He.
      unfold Bind at 1. rewrite Hrun. reflexivity.
    + cbn [combine]. repeat split; auto.
      * destruct c; cbn [session_discipline]; auto.
        subst r. destruct held; cbn; exact Hs.
      * destruct c; cbn [outstanding]; auto.
        -- subst r. destruct held; cbn; exact Ho.
        -- destruct held; cbn; exact Ho.
Qed.

(** C2.  Start with the lock free and [dev_stats] free, and make any
    sequence of calls (opens and releases, and writes, shows and stores in
    between).  Every call returns.  In the history no open succeeds while
    an earlier successful open has not been released, every open made
    while a session is held answers [-EBUSY], and at most one session is
    outstanding.  In the state reached, an open made while [dev_stats] is
    busy answers [-EBUSY] and leaves the device record and every line as
    they were; and a release followed at once by an open always succeeds
    and holds the device. *)
Theorem open_release_exclusive (cs : list call) (w : world) :
  lock (miscbuzzer w) = false ->
  dev_stats (miscbuzzer w) = DEV_FREE ->
  exists rs w',
    run cs w = Some (rs, w')
    /\ session_discipline false (combine cs rs) = true
    /\ (outstanding 0 (combine cs rs) <= 1)%nat
    /\ (dev_stats (miscbuzzer w') = DEV_BUSY ->
        exists w'',
          miscbuzzer_open w' = Some (- EBUSY, w'')
          /\ miscbuzzer w'' = miscbuzzer w'
          /\ pins w'' = pins w')
    /\ (exists w'',
          (miscbuzzer_release ;; miscbuzzer_open) w' = Some (0, w'')
          /\ dev_stats (miscbuzzer w'') = DEV_BUSY).
Proof.
  intros Hl Hd.
  destruct (run_discipline cs false w Hl Hd)
    as (rs & w' & Hrun & Hs & Ho & Hl' & Hd').
  exists rs, w'. repeat split; auto.
  - intros Hb. destruct w' as [[g' s' d' l'] p' e']. fields. subst l'.
    rewrite miscbuzzer_open_busy by exact Hb.
    eexists; repeat split; reflexivity.
  - unfold Bind at 1. destruct w' as [[g' s' d' l'] p' e']. fields.
    subst l'. destruct (Z.eq_dec d' DEV_BUSY) as [Hb | Hb].
    + rewrite miscbuzzer_release_busy by exact Hb.
      rewrite miscbuzzer_open_free by (unfold DEV_FREE, DEV_BUSY; lia).
      eexists; split; reflexivity.
    + rewrite miscbuzzer_release_free by exact Hb.
      rewrite miscbuzzer_open_free by exact Hb.
      eexists; split; reflexivity.
Qed.

(* ===================================================================== *)
(** ** The attribute interface                                            *)
(* ===================================================================== *)

(** C6.  With the spin lock free and [dev_stats] busy, [buzzer_store]
    answers [-EBUSY] whatever the text, and leaves the device record
    ([buzzer_stats] included) and every line as they were. *)
Theorem buzzer_store_while_busy (w : world) (buf : string)
  (size state0 : Z) :
  lock (miscbuzzer w) = false ->
  dev_stats (miscbuzzer w) = DEV_BUSY ->
  exists w',
    buzzer_store buf size state0 w = Some (- EBUSY, w')
    /\ miscbuzzer w' = miscbuzzer w
    /\ pins w' = pins w
    /\ line w' = line w.
Proof.
  open_world w. intros -> Hb.
  rewrite buzzer_store_busy by exact Hb.
  eexists; repeat split; reflexivity.
Qed.

(** C7.  With the lock free and no session held, a store whose text
    [kstrtoul] rejects (non-zero return code) still returns the byte count
    [size], not the error; [dev_stats], set busy on the way, is free again
    on return, and the lock is released.  The log shows the provisional
    busy mark first and its clearing last inside the critical section.
    The ON/OFF branch still runs, on the never-assigned local [state]:
    unless that happens to hold 1 or 0, [buzzer_stats] and the lines stay
    as they were. *)
Theorem buzzer_store_parse_failure (w : world) (buf : string)
  (size state0 : Z) :
  lock (miscbuzzer w) = false ->
  dev_stats (miscbuzzer w) <> DEV_BUSY ->
  fst (kstrtoul buf 10) <> 0 ->
  0 <= size <= INT_MAX ->
  exists w' mid,
    buzzer_store buf size state0 w = Some (size, w')
    /\ dev_stats (miscbuzzer w') = DEV_FREE
    /\ lock (miscbuzzer w') = false
    /\ emitted w w'
       = [EvLock; EvDevStats DEV_BUSY] ++ mid
         ++ [EvDevStats DEV_FREE; EvUnlock]
    /\ (state0 <> BUZZERON -> state0 <> BUZZEROFF ->
        mid = []
        /\ buzzer_stats (miscbuzzer w') = buzzer_stats (miscbuzzer w)
        /\ pins w' = pins w).
Proof.
  open_world w. intros -> Hb Hk Hs.
  assert (Hst : match snd (kstrtoul buf 10) with
                | Some v => v
                | None => state0
                end = state0)
    by (rewrite (kstrtoul_fails buf 10 Hk); reflexivity).
  destruct (Z.eq_dec state0 BUZZERON) as [H1 | H1];
    [| destruct (Z.eq_dec state0 BUZZEROFF) as [H0 | H0]].
  - rewrite buzzer_store_on by (try rewrite Hst; assumption).
    rewrite (to_int_small size Hs).
    eexists; exists [EvGpioSet gpio GPIO_LOW; EvBuzzerStats BUZZERON].
    split; [reflexivity |]. fields. rewrite emitted_app.
    repeat split; try reflexivity; contradiction.
  - rewrite buzzer_store_off by (try rewrite Hst; assumption).
    rewrite (to_int_small size Hs).
    eexists; exists [EvGpioSet gpio GPIO_HIGH; EvBuzzerStats BUZZEROFF].
    split; [reflexivity |]. fields. rewrite emitted_app.
    repeat split; try reflexivity; contradiction.
  - rewrite buzzer_store_other by (try rewrite Hst; assumption).
    rewrite (to_int_small size Hs).
    eexists; exists [].
    split; [reflexivity |]. fields. rewrite emitted_app.
    repeat split; reflexivity.
Qed.

(** C9.  With the lock free and no session held, storing the text ["1"]
    (alone or followed by one newline) sets [buzzer_stats] to ON, drives
    the line low and returns the byte count [size] it was given; storing
    ["0"] (alone or followed by one newline) sets [buzzer_stats] to OFF,
    drives the line high and returns [size] too.  [dev_stats] is free on
    return. *)
Theorem buzzer_store_text (w : world) (buf : string) (size state0 : Z) :
  lock (miscbuzzer w) = false ->
  dev_stats (miscbuzzer w) <> DEV_BUSY ->
  0 <= size <= INT_MAX ->
  (buf = "1"%string \/ buf = String "1" (String "010" EmptyString) ->
   exists w',
     buzzer_store buf size state0 w = Some (size, w')
     /\ buzzer_stats (miscbuzzer w') = BUZZERON
     /\ line w' = Some GPIO_LOW
     /\ dev_stats (miscbuzzer w') = DEV_FREE)
  /\ (buf = "0"%string \/ buf = String "0" (String "010" EmptyString) ->
      exists w',
        buzzer_store buf size state0 w = Some (size, w')
        /\ buzzer_stats (miscbuzzer w') = BUZZEROFF
        /\ line w' = Some GPIO_HIGH
        /\ dev_stats (miscbuzzer w') = DEV_FREE).
Proof.
  open_world w. intros -> Hb Hs. split; intros Hbuf.
  - rewrite buzzer_store_on
      by first [exact Hb | destruct Hbuf as [-> | ->]; reflexivity].
    rewrite (to_int_small size Hs).
    eexists; split; [reflexivity |]. unfold line. fields.
    repeat split; try reflexivity. apply lookup_insert_eq.
  - rewrite buzzer_store_off
      by first [exact Hb | destruct Hbuf as [-> | ->]; reflexivity].
    rewrite (to_int_small size Hs).
    eexists; split; [reflexivity |]. unfold line. fields.
    repeat split; try reflexivity. apply lookup_insert_eq.
Qed.

(** C10.  With the lock free and no session held, a store whose text
    [kstrtoul] accepts with a value other than 0 and 1 returns the byte
    count [size]; [buzzer_stats], [buzzer_gpio] and every line are as
    before, [dev_stats] is free and the lock released on return. *)
Theorem buzzer_store_other_value (w : world) (buf : string)
  (size state0 n : Z) :
  lock (miscbuzzer w) = false ->
  dev_stats (miscbuzzer w) <> DEV_BUSY ->
  kstrtoul buf 10 = (0, Some n) ->
  n <> BUZZEROFF ->
  n <> BUZZERON ->
  0 <= size <= INT_MAX ->
  exists w',
    buzzer_store buf size state0 w = Some (size, w')
    /\ buzzer_stats (miscbuzzer w') = buzzer_stats (miscbuzzer w)
    /\ buzzer_gpio (miscbuzzer w') = buzzer_gpio (miscbuzzer w)
    /\ pins w' = pins w
    /\ line w' = line w
    /\ dev_stats (miscbuzzer w') = DEV_FREE
    /\ lock (miscbuzzer w') = false.
Proof.
  open_world w. intros -> Hb Hk H0 H1 Hs.
  rewrite buzzer_store_other
    by first [exact Hb | rewrite Hk; assumption].
  rewrite (to_int_small size Hs).
  eexists; repeat split; reflexivity.
Qed.

(* ===================================================================== *)
(** ** Transfer faults, attachment, locking                               *)
(* ===================================================================== *)

(** [-EFAULT] comes back exactly when the count of bytes left uncopied is
    negative once stored in the [int] [retvalue]; the device record and
    the lines are then untouched. *)
Lemma miscbuzzer_write_efault_iff (w : world) (buf : list byte) (cnt : Z)
  (databuf0 : byte) :
  (exists w', miscbuzzer_write buf cnt databuf0 w = Some (- EFAULT, w')
              /\ miscbuzzer w' = miscbuzzer w /\ pins w' = pins w)
  <-> to_int (fst (copy_from_user databuf0 buf cnt)) < 0.
Proof.
  open_world w. split.
  - intros (w' & Hw & _).
    destruct (Z_lt_le_dec (to_int (fst (copy_from_user databuf0 buf cnt))) 0)
      as [Hf | Hok]; [exact Hf | exfalso].
    destruct (Z.eq_dec (uchar (snd (copy_from_user databuf0 buf cnt)))
                BUZZERON) as [H1 | H1];
      [| destruct (Z.eq_dec (uchar (snd (copy_from_user databuf0 buf cnt)))
                     BUZZEROFF) as [H0 | H0]].
    + rewrite miscbuzzer_write_on in Hw by assumption. discriminate Hw.
    + rewrite miscbuzzer_write_off in Hw by assumption. discriminate Hw.
    + rewrite miscbuzzer_write_other in Hw by assumption. discriminate Hw.
  - intros Hf. rewrite miscbuzzer_write_fault by exact Hf.
    eexists; repeat split; reflexivity.
Qed.

(** A transfer of at most [INT_MAX] bytes never makes [miscbuzzer_write]
    answer [-EFAULT], however little of the buffer can be read. *)
Lemma miscbuzzer_write_never_efault (w : world) (buf : list byte) (cnt : Z)
  (databuf0 : byte) :
  0 <= cnt <= INT_MAX ->
  exists w', miscbuzzer_write buf cnt databuf0 w = Some (0, w').
Proof.
  intros Hc.
  assert (Hn : 0 <= to_int (fst (copy_from_user databuf0 buf cnt))).
  { unfold copy_from_user; cbn [fst].
    rewrite to_int_small; unfold INT_MAX in *; lia. }
  open_world w.
  destruct (Z.eq_dec (uchar (snd (copy_from_user databuf0 buf cnt)))
              BUZZERON) as [H1 | H1];
    [| destruct (Z.eq_dec (uchar (snd (copy_from_user databuf0 buf cnt)))
                   BUZZEROFF) as [H0 | H0]].
  - rewrite miscbuzzer_write_on by assumption. eexists; reflexivity.
  - rewrite miscbuzzer_write_off by assumption. eexists; reflexivity.
  - rewrite miscbuzzer_write_other by assumption. eexists; reflexivity.
Qed.

(** C4.  A one-byte write from a buffer that cannot be read: the byte is
    reported as not copied, yet [miscbuzzer_write] returns 0 instead of
    [-EFAULT], and, acting on the zero byte [copy_from_user] left in
    [databuf], it drives the line high and sets [buzzer_stats] to OFF. *)
Theorem miscbuzzer_write_unreadable_buffer (w : world) (databuf0 : byte) :
  fst (copy_from_user databuf0 [] 1) = 1
  /\ exists w',
       miscbuzzer_write [] 1 databuf0 w = Some (0, w')
       /\ line w' = Some GPIO_HIGH
       /\ buzzer_stats (miscbuzzer w') = BUZZEROFF
       /\ emitted w w'
          = [EvGpioSet (buzzer_gpio (miscbuzzer w)) GPIO_HIGH;
             EvBuzzerStats BUZZEROFF].
Proof.
  split; [reflexivity |]. open_world w.
  rewrite miscbuzzer_write_off
    by first [reflexivity | vm_compute; discriminate].
  eexists; split; [reflexivity |]. unfold line. fields.
  rewrite emitted_app.
  repeat split; try reflexivity. apply lookup_insert_eq.
Qed.

(** C5.  Attachment of a fresh device (zeroed [miscbuzzer]) on line
    [gpio], all platform calls succeeding.  Without a ["default-state"] the
    line is high and [buzzer_show] prints ["0"].  With ["default-state"]
    equal to ["on"] the line is driven low, but [buzzer_stats] is not
    written: it is still OFF and [buzzer_show] prints ["0"] as well. *)
Theorem gpio_buzzer_probe_default_state (gpio : Z) :
  0 <= gpio ->
  (exists w',
     gpio_buzzer_probe (MkPdev gpio 0 0 0 None) boot = Some (0, w')
     /\ line w' = Some GPIO_HIGH
     /\ buzzer_stats (miscbuzzer w') = BUZZEROFF
     /\ buzzer_show w'
        = Some ((2, String "0" (String "010" EmptyString)), w'))
  /\ (exists w',
        gpio_buzzer_probe (MkPdev gpio 0 0 0 (Some "on"%string)) boot
        = Some (0, w')
        /\ line w' = Some GPIO_LOW
        /\ buzzer_stats (miscbuzzer w') = BUZZEROFF
        /\ buzzer_show w'
           = Some ((2, String "0" (String "010" EmptyString)), w')).
Proof.
  intros Hg. apply Z.ltb_ge in Hg.
  unfold gpio_buzzer_probe, boot, buzzer_show. unfold_prims.
  cbn. rewrite Hg. cbn. split.
  - eexists; split; [reflexivity |]. unfold line. fields.
    repeat split; try reflexivity. apply lookup_insert_eq.
  - eexists; split; [reflexivity |]. unfold line. fields.
    repeat split; try reflexivity. apply lookup_insert_eq.
Qed.

(** C3, as stated, fails.  Attach the device on line 5, open a session and
    write the byte 1: the write returns 0 having emitted the level write
    and the change of [buzzer_stats] with no lock taken, so these two
    mutations are outside any critical section. *)
Lemma session_write_outside_critical_section :
  exists ws w',
    (gpio_buzzer_probe (MkPdev 5 0 0 0 None) ;; miscbuzzer_open) boot
    = Some (0, ws)
    /\ exec (CallWrite [x01] 1 x00) ws = Some (0, w')
    /\ emitted ws w' = [EvGpioSet 5 GPIO_LOW; EvBuzzerStats BUZZERON]
    /\ in_critical_section false (emitted ws w') = false.
Proof.
  do 2 eexists.
  split; [vm_compute; reflexivity |].
  split; [vm_compute; reflexivity |].
  split; vm_compute; reflexivity.
Qed.

(** C3, amended.  Every entry point called with the lock free (a session
    write being of at most one byte, as fits [databuf]) returns.  In what
    it emitted, each change of [buzzer_stats] directly follows the write of
    the matching level to the buzzer's line.  For open, release, show and
    store every mutation (of [dev_stats], of [buzzer_stats], of the line)
    lies inside the critical section of the spin lock; the session write
    never touches the lock. *)
Theorem mutation_lock_discipline (c : call) (w : world) :
  lock (miscbuzzer w) = false ->
  fits_databuf c = true ->
  exists r w',
    exec c w = Some (r, w')
    /\ lock (miscbuzzer w') = false
    /\ committed_together (buzzer_gpio (miscbuzzer w)) (emitted w w') = true
    /\ match c with
       | CallWrite _ _ _ => lock_free (emitted w w') = true
       | _ => in_critical_section false (emitted w w') = true
       end.
Proof.
  intros Hl _. destruct c as [| buf cnt d0 | | | buf size state0];
    cbn [exec].
  - open_world w. subst lk.
    destruct (Z.eq_dec busy DEV_BUSY) as [Hb | Hb].
    + rewrite miscbuzzer_open_busy by exact Hb.
      do 2 eexists; split; [reflexivity |]. fields. rewrite emitted_app.
      repeat split; reflexivity.
    + rewrite miscbuzzer_open_free by exact Hb.
      do 2 eexists; split; [reflexivity |]. fields. rewrite emitted_app.
      repeat split; reflexivity.
  - destruct (miscbuzzer_write_total w buf cnt d0)
      as (r & w' & -> & _ & _ & Hl' & Hf & Hc).
    exists r, w'. rewrite Hl'. auto.
  - open_world w. subst lk.
    destruct (Z.eq_dec busy DEV_BUSY) as [Hb | Hb].
    + rewrite miscbuzzer_release_busy by exact Hb.
      do 2 eexists; split; [reflexivity |]. fields. rewrite emitted_app.
      repeat split; reflexivity.
    + rewrite miscbuzzer_release_free by exact Hb.
      do 2 eexists; split; [reflexivity |]. fields. rewrite emitted_app.
      repeat split; reflexivity.
  - open_world w. subst lk. unfold buzzer_show. unfold_prims.
    do 2 eexists; split; [reflexivity |]. fields. rewrite emitted_nil.
    repeat split; reflexivity.
  - destruct (buzzer_store_total w buf size state0 Hl)
      as (r & w' & -> & _ & _ & Hl' & Hi & Hc).
    exists r, w'. auto.
Qed.

(* ===================================================================== *)
(** ** The model on concrete inputs                                       *)
(* ===================================================================== *)

Example kstrtoul_one_newline :
  kstrtoul (String "1" (String "010" EmptyString)) 10 = (0, Some 1).
Proof. reflexivity. Qed.

Example kstrtoul_plus_zero : kstrtoul "+0" 10 = (0, Some 0).
Proof. reflexivity. Qed.

Example kstrtoul_letters : kstrtoul "on" 10 = (- EINVAL, None).
Proof. reflexivity. Qed.

Example kstrtoul_trailing_blank : kstrtoul "1 " 10 = (- EINVAL, None).
Proof. reflexivity. Qed.

Example kstrtoul_too_large : kstrtoul "4294967296" 10 = (- ERANGE, None).
Proof. vm_compute. reflexivity. Qed.

Example copy_readable : copy_from_user x07 [x01] 1 = (0, x01).
Proof. reflexivity. Qed.

Example copy_unreadable : copy_from_user x07 [] 1 = (1, x00).
Proof. reflexivity. Qed.

(** Attach on line 5, open, write 1, read the status, write 9, read the
    status, write 0, read the status: the texts read are ["1"], ["1"],
    ["0"], and the line ends high. *)
Example session_scenario :
  option_map
    (fun rw => (fst rw, line (snd rw)))
    ((gpio_buzzer_probe (MkPdev 5 0 0 0 None) ;;
      miscbuzzer_open ;;
      miscbuzzer_write [x01] 1 x00 ;;
      let* s1 := buzzer_show in
      miscbuzzer_write [x09] 1 x00 ;;
      let* s2 := buzzer_show in
      miscbuzzer_write [x00] 1 x00 ;;
      let* s3 := buzzer_show in
      Return [snd s1; snd s2; snd s3]) boot)
  = Some ([String "1" (String "010" EmptyString);
           String "1" (String "010" EmptyString);
           String "0" (String "010" EmptyString)], Some GPIO_HIGH).
Proof. vm_compute. reflexivity. Qed.

(** Detaching while ON forces the line high and the status OFF. *)
Example remove_while_on :
  option_map
    (fun rw => (buzzer_stats (miscbuzzer (snd rw)), line (snd rw)))
    ((gpio_buzzer_probe (MkPdev 5 0 0 0 None) ;;
      buzzer_store "1" 1 0 ;;
      gpio_buzzer_remove) boot)
  = Some (BUZZEROFF, Some GPIO_HIGH).
Proof. vm_compute. reflexivity. Qed.

(* ===================================================================== *)
(** ** The theorems at concrete inputs                                    *)
(* ===================================================================== *)

(** C1 at the byte 1, on the fresh device. *)
Lemma miscbuzzer_write_byte_witness :
  exists w',
    miscbuzzer_write [x01] 1 x00 boot = Some (0, w')
    /\ line w' = Some GPIO_LOW
    /\ buzzer_stats (miscbuzzer w') = BUZZERON.
Proof.
  destruct (miscbuzzer_write_byte boot x01 [] x00)
    as (w' & Hw & _ & _ & _ & Hon & _).
  exists w'. split; [exact Hw | exact (Hon eq_refl)].
Defined.

(** C2 on open, open, release, open from the fresh device. *)
Lemma open_release_exclusive_witness :
  lock (miscbuzzer boot) = false
  /\ dev_stats (miscbuzzer boot) = DEV_FREE
  /\ exists rs w',
       run [CallOpen; CallOpen; CallRelease; CallOpen] boot = Some (rs, w')
       /\ session_discipline false
            (combine [CallOpen; CallOpen; CallRelease; CallOpen] rs) = true
       /\ (outstanding 0
             (combine [CallOpen; CallOpen; CallRelease; CallOpen] rs)
           <= 1)%nat.
Proof.
  split; [reflexivity |]. split; [reflexivity |].
  destruct (open_release_exclusive
              [CallOpen; CallOpen; CallRelease; CallOpen] boot
              eq_refl eq_refl)
    as (rs & w' & Hrun & Hs & Ho & _).
  exists rs, w'. auto.
Defined.

(** The results of that sequence: success, busy, released, success. *)
Example open_open_release_open :
  option_map fst (run [CallOpen; CallOpen; CallRelease; CallOpen] boot)
  = Some [0; - EBUSY; 0; 0].
Proof. vm_compute. reflexivity. Qed.

(** C3 (amended) on a one-byte session write of 1 to the fresh device. *)
Lemma mutation_lock_discipline_witness :
  lock (miscbuzzer boot) = false
  /\ fits_databuf (CallWrite [x01] 1 x00) = true
  /\ exists r w',
       exec (CallWrite [x01] 1 x00) boot = Some (r, w')
       /\ lock_free (emitted boot w') = true
       /\ committed_together (buzzer_gpio (miscbuzzer boot))
            (emitted boot w') = true.
Proof.
  split; [reflexivity |]. split; [reflexivity |].
  destruct (mutation_lock_discipline (CallWrite [x01] 1 x00) boot
              eq_refl eq_refl)
    as (r & w' & He & _ & Hc & Hi).
  exists r, w'. auto.
Defined.

(** C5 on line 5. *)
Lemma gpio_buzzer_probe_default_state_witness :
  0 <= 5
  /\ exists w',
       gpio_buzzer_probe (MkPdev 5 0 0 0 (Some "on"%string)) boot
       = Some (0, w')
       /\ line w' = Some GPIO_LOW
       /\ buzzer_stats (miscbuzzer w') = BUZZEROFF.
Proof.
  split; [lia |].
  destruct (gpio_buzzer_probe_default_state 5 ltac:(lia))
    as (_ & w' & Hp & Hl & Hs & _).
  exists w'. auto.
Defined.

(** C6 on a device held by a session, line 5. *)
Lemma buzzer_store_while_busy_witness :
  lock (miscbuzzer (MkWorld (MkDev 5 BUZZEROFF DEV_BUSY false) ∅ [])) = false
  /\ dev_stats (miscbuzzer (MkWorld (MkDev 5 BUZZEROFF DEV_BUSY false) ∅ []))
     = DEV_BUSY
  /\ exists w',
       buzzer_store "1" 1 0 (MkWorld (MkDev 5 BUZZEROFF DEV_BUSY false) ∅ [])
       = Some (- EBUSY, w')
       /\ miscbuzzer w' = MkDev 5 BUZZEROFF DEV_BUSY false
       /\ pins w' = ∅.
Proof.
  split; [reflexivity |]. split; [reflexivity |].
  destruct (buzzer_store_while_busy
              (MkWorld (MkDev 5 BUZZEROFF DEV_BUSY false) ∅ []) "1" 1 0
              eq_refl eq_refl)
    as (w' & Hs & Hm & Hp & _).
  exists w'. auto.
Defined.

(** C7 on the text ["x"], with 7 left in the local [state]. *)
Lemma buzzer_store_parse_failure_witness :
  lock (miscbuzzer boot) = false
  /\ dev_stats (miscbuzzer boot) <> DEV_BUSY
  /\ fst (kstrtoul "x" 10) <> 0
  /\ 0 <= 1 <= INT_MAX
  /\ exists w',
       buzzer_store "x" 1 7 boot = Some (1, w')
       /\ dev_stats (miscbuzzer w') = DEV_FREE.
Proof.
  assert (Hd : dev_stats (miscbuzzer boot) <> DEV_BUSY)
    by (vm_compute; discriminate).
  assert (Hk : fst (kstrtoul "x" 10) <> 0) by (vm_compute; discriminate).
  assert (Hs : 0 <= 1 <= INT_MAX) by (unfold INT_MAX; lia).
  repeat (split; [first [reflexivity | assumption] |]).
  destruct (buzzer_store_parse_failure boot "x" 1 7 eq_refl Hd Hk Hs)
    as (w' & mid & Hw & Hf & _).
  exists w'. auto.
Defined.

(** C8 on a device held by a session. *)
Lemma miscbuzzer_release_frees_witness :
  lock (miscbuzzer (MkWorld (MkDev 5 BUZZERON DEV_BUSY false) ∅ [])) = false
  /\ exists w' w'',
       miscbuzzer_release (MkWorld (MkDev 5 BUZZERON DEV_BUSY false) ∅ [])
       = Some (0, w')
       /\ dev_stats (miscbuzzer w') = DEV_FREE
       /\ buzzer_stats (miscbuzzer w') = BUZZERON
       /\ miscbuzzer_release w' = Some (0, w'')
       /\ miscbuzzer w'' = miscbuzzer w'.
Proof.
  split; [reflexivity |].
  destruct (miscbuzzer_release_frees
              (MkWorld (MkDev 5 BUZZERON DEV_BUSY false) ∅ []) eq_refl)
    as (w' & w'' & Hr & Hb & _ & Hs & _ & _ & _ & Hr' & Hm & _).
  exists w', w''. repeat split; auto.
Defined.

(** C9 on the text ["1"]. *)
Lemma buzzer_store_text_witness :
  lock (miscbuzzer boot) = false
  /\ dev_stats (miscbuzzer boot) <> DEV_BUSY
  /\ 0 <= 1 <= INT_MAX
  /\ exists w',
       buzzer_store "1" 1 0 boot = Some (1, w')
       /\ buzzer_stats (miscbuzzer w') = BUZZERON
       /\ line w' = Some GPIO_LOW.
Proof.
  assert (Hd : dev_stats (miscbuzzer boot) <> DEV_BUSY)
    by (vm_compute; discriminate).
  assert (Hs : 0 <= 1 <= INT_MAX) by (unfold INT_MAX; lia).
  repeat (split; [first [reflexivity | assumption] |]).
  destruct (buzzer_store_text boot "1" 1 0 eq_refl Hd Hs) as (Hon & _).
  destruct (Hon (or_introl eq_refl)) as (w' & Hw & Hst & Hl & _).
  exists w'. auto.
Defined.

(** C10 on the text ["2"]. *)
Lemma buzzer_store_other_value_witness :
  lock (miscbuzzer boot) = false
  /\ dev_stats (miscbuzzer boot) <> DEV_BUSY
  /\ kstrtoul "2" 10 = (0, Some 2)
  /\ 2 <> BUZZEROFF
  /\ 2 <> BUZZERON
  /\ 0 <= 1 <= INT_MAX
  /\ exists w',
       buzzer_store "2" 1 0 boot = Some (1, w')
       /\ buzzer_stats (miscbuzzer w') = buzzer_stats (miscbuzzer boot)
       /\ pins w' = pins boot.
Proof.
  assert (Hd : dev_stats (miscbuzzer boot) <> DEV_BUSY)
    by (vm_compute; discriminate).
  assert (H0 : 2 <> BUZZEROFF) by (vm_compute; discriminate).
  assert (H1 : 2 <> BUZZERON) by (vm_compute; discriminate).
  assert (Hs : 0 <= 1 <= INT_MAX) by (unfold INT_MAX; lia).
  repeat (split; [first [reflexivity | assumption] |]).
  destruct (buzzer_store_other_value boot "2" 1 0 2
              eq_refl Hd eq_refl H0 H1 Hs)
    as (w' & Hw & Hst & _ & Hp & _).
  exists w'. auto.
Defined.

(* ===================================================================== *)
(** ** Beyond the claims: outcomes of the two writers                     *)
(* ===================================================================== *)

(** The four ways [miscbuzzer_write] can end. *)
Lemma miscbuzzer_write_cases (gpio stats busy : Z) (lk : bool)
  (pn : gmap Z Z) (evs : list event) (buf : list byte) (cnt : Z)
  (databuf0 : byte) :
  miscbuzzer_write buf cnt databuf0 (MkWorld (MkDev gpio stats busy lk) pn evs)
  = Some (- EFAULT, MkWorld (MkDev gpio stats busy lk) pn
                            (evs ++ [EvDevErr "miscbuzzer_write failed!"]))
  \/ miscbuzzer_write buf cnt databuf0
       (MkWorld (MkDev gpio stats busy lk) pn evs)
     = Some (0, MkWorld (MkDev gpio BUZZERON busy lk)
                        (<[gpio := GPIO_LOW]> pn)
                        (evs ++ [EvGpioSet gpio GPIO_LOW;
                                 EvBuzzerStats BUZZERON]))
  \/ miscbuzzer_write buf cnt databuf0
       (MkWorld (MkDev gpio stats busy lk) pn evs)
     = Some (0, MkWorld (MkDev gpio BUZZEROFF busy lk)
                        (<[gpio := GPIO_HIGH]> pn)
                        (evs ++ [EvGpioSet gpio GPIO_HIGH;
                                 EvBuzzerStats BUZZEROFF]))
  \/ miscbuzzer_write buf cnt databuf0
       (MkWorld (MkDev gpio stats busy lk) pn evs)
     = Some (0, MkWorld (MkDev gpio stats busy lk) pn evs).
Proof.
  destruct (Z_lt_le_dec (to_int (fst (copy_from_user databuf0 buf cnt))) 0)
    as [Hf | Hok].
  - left. apply miscbuzzer_write_fault; exact Hf.
  - right.
    destruct (Z.eq_dec (uchar (snd (copy_from_user databuf0 buf cnt)))
                BUZZERON) as [H1 | H1];
      [| destruct (Z.eq_dec (uchar (snd (copy_from_user databuf0 buf cnt)))
                     BUZZEROFF) as [H0 | H0]].
    + left. apply miscbuzzer_write_on; assumption.
    + right; left. apply miscbuzzer_write_off; assumption.
    + right; right. apply miscbuzzer_write_other; assumption.
Qed.

(** The four ways [buzzer_store] can end when the lock is free. *)
Lemma buzzer_store_cases (gpio stats busy : Z) (pn : gmap Z Z)
  (evs : list event) (buf : string) (size state0 : Z) :
  buzzer_store buf size state0 (MkWorld (MkDev gpio stats busy false) pn evs)
  = Some (- EBUSY, MkWorld (MkDev gpio stats busy false) pn
                           (evs ++ [EvLock; EvUnlock]))
  \/ buzzer_store buf size state0
       (MkWorld (MkDev gpio stats busy false) pn evs)
     = Some (to_int size,
             MkWorld (MkDev gpio BUZZERON DEV_FREE false)
                     (<[gpio := GPIO_LOW]> pn)
                     (evs ++ [EvLock; EvDevStats DEV_BUSY;
                              EvGpioSet gpio GPIO_LOW; EvBuzzerStats BUZZERON;
                              EvDevStats DEV_FREE; EvUnlock]))
  \/ buzzer_store buf size state0
       (MkWorld (MkDev gpio stats busy false) pn evs)
     = Some (to_int size,
             MkWorld (MkDev gpio BUZZEROFF DEV_FREE false)
                     (<[gpio := GPIO_HIGH]> pn)
                     (evs ++ [EvLock; EvDevStats DEV_BUSY;
                              EvGpioSet gpio GPIO_HIGH;
                              EvBuzzerStats BUZZEROFF;
                              EvDevStats DEV_FREE; EvUnlock]))
  \/ buzzer_store buf size state0
       (MkWorld (MkDev gpio stats busy false) pn evs)
     = Some (to_int size,
             MkWorld (MkDev gpio stats DEV_FREE false) pn
                     (evs ++ [EvLock; EvDevStats DEV_BUSY;
                              EvDevStats DEV_FREE; EvUnlock])).
Proof.
  destruct (Z.eq_dec busy DEV_BUSY) as [Hb | Hb].
  - left. apply buzzer_store_busy; exact Hb.
  - right.
    destruct (Z.eq_dec (match snd (kstrtoul buf 10) with
                        | Some v => v
                        | None => state0
                        end) BUZZERON) as [H1 | H1];
      [| destruct (Z.eq_dec (match snd (kstrtoul buf 10) with
                             | Some v => v
                             | None => state0
                             end) BUZZEROFF) as [H0 | H0]].
    + left. apply buzzer_store_on; assumption.
    + right; left. apply buzzer_store_off; assumption.
    + right; right. apply buzzer_store_other; assumption.
Qed.

(** What one call keeps, whichever entry point it is: the lock is free
    again, [buzzer_gpio] is the same, no other line is touched, a status
    that is 0 or 1 stays 0 or 1, and a line that agrees with the status
    still agrees with it. *)
Lemma exec_keeps (c : call) (w : world) :
  lock (miscbuzzer w) = false ->
  exists r w',
    exec c w = Some (r, w')
    /\ lock (miscbuzzer w') = false
    /\ buzzer_gpio (miscbuzzer w') = buzzer_gpio (miscbuzzer w)
    /\ (forall g : Z, g <> buzzer_gpio (miscbuzzer w) ->
                      pins w' !! g = pins w !! g)
    /\ (buzzer_stats (miscbuzzer w) = BUZZEROFF
        \/ buzzer_stats (miscbuzzer w) = BUZZERON ->
        buzzer_stats (miscbuzzer w') = BUZZEROFF
        \/ buzzer_stats (miscbuzzer w') = BUZZERON)
    /\ (line w = Some (level_of (buzzer_stats (miscbuzzer w))) ->
        line w' = Some (level_of (buzzer_stats (miscbuzzer w')))).
Proof.
  intros Hl. unfold line.
  destruct c as [| buf cnt d0 | | | buf size state0]; cbn [exec];
    open_world w; subst lk.
  - destruct (Z.eq_dec busy DEV_BUSY) as [Hb | Hb];
      [rewrite miscbuzzer_open_busy by exact Hb
      | rewrite miscbuzzer_open_free by exact Hb];
      do 2 eexists; (split; [reflexivity |]); fields; auto 10.
  - destruct (miscbuzzer_write_cases gpio stats busy false pn evs buf cnt d0)
      as [-> | [-> | [-> | ->]]];
      do 2 eexists; (split; [reflexivity |]); fields;
      repeat split; auto; intros;
      first [ apply lookup_insert_ne; congruence
            | apply lookup_insert_eq ].
  - destruct (Z.eq_dec busy DEV_BUSY) as [Hb | Hb];
      [rewrite miscbuzzer_release_busy by exact Hb
      | rewrite miscbuzzer_release_free by exact Hb];
      do 2 eexists; (split; [reflexivity |]); fields; auto 10.
  - unfold buzzer_show. unfold_prims.
    do 2 eexists; (split; [reflexivity |]); fields; auto 10.
  - destruct (buzzer_store_cases gpio stats busy pn evs buf size state0)
      as [-> | [-> | [-> | ->]]];
      do 2 eexists; (split; [reflexivity |]); fields;
      repeat split; auto; intros;
      first [ apply lookup_insert_ne; congruence
            | apply lookup_insert_eq ].
Qed.

(** The same over any sequence of calls. *)
Lemma run_keeps (cs : list call) :
  forall w : world,
    lock (miscbuzzer w) = false ->
    exists rs w',
      run cs w = Some (rs, w')
      /\ length rs = length cs
      /\ lock (miscbuzzer w') = false
      /\ buzzer_gpio (miscbuzzer w') = buzzer_gpio (miscbuzzer w)
      /\ (forall g : Z, g <> buzzer_gpio (miscbuzzer w) ->
                        pins w' !! g = pins w !! g)
      /\ (buzzer_stats (miscbuzzer w) = BUZZEROFF
          \/ buzzer_stats (miscbuzzer w) = BUZZERON ->
          buzzer_stats (miscbuzzer w') = BUZZEROFF
          \/ buzzer_stats (miscbuzzer w') = BUZZERON)
      /\ (line w = Some (level_of (buzzer_stats (miscbuzzer w))) ->
          line w' = Some (level_of (buzzer_stats (miscbuzzer w')))).
Proof.
  induction cs as [| c cs IH]; intros w Hl.
  - exists [], w. cbn. repeat split; auto.
  - destruct (exec_keeps c w Hl)
      as (r & w1 & He & Hl1 & Hg1 & Hp1 & Hs1 & Hc1).
    destruct (IH w1 Hl1) as (rs & w' & Hrun & Hlen & Hl' & Hg' & Hp' & Hs' & Hc').
    exists (r :: rs), w'. split.
    + cbn [run]. unfold Bind at 1. rewrite He.
      unfold Bind at 1. rewrite Hrun. reflexivity.
    + repeat split; auto.
      * cbn [length]. rewrite Hlen. reflexivity.
      * congruence.
      * intros g Hg. rewrite Hp' by congruence. apply Hp1; exact Hg.
Qed.

(* ===================================================================== *)
(** ** Beyond the claims: status, line and the other lines                *)
(* ===================================================================== *)

(** X1.  Once the buzzer's line agrees with [buzzer_stats] (low for ON,
    high for OFF) and [buzzer_stats] is 0 or 1, no sequence of opens,
    writes of at most one byte, releases, shows and stores can break this:
    every call returns, and in the state reached the status is still 0 or
    1 and the line still is the level that goes with it. *)
Theorem run_keeps_status_and_line (cs : list call) (w : world) :
  lock (miscbuzzer w) = false ->
  forallb fits_databuf cs = true ->
  buzzer_stats (miscbuzzer w) = BUZZEROFF
  \/ buzzer_stats (miscbuzzer w) = BUZZERON ->
  line w = Some (level_of (buzzer_stats (miscbuzzer w))) ->
  exists rs w',
    run cs w = Some (rs, w')
    /\ length rs = length cs
    /\ (buzzer_stats (miscbuzzer w') = BUZZEROFF
        \/ buzzer_stats (miscbuzzer w') = BUZZERON)
    /\ line w' = Some (level_of (buzzer_stats (miscbuzzer w'))).
Proof.
  intros Hl _ Hs Hc.
  destruct (run_keeps cs w Hl) as (rs & w' & Hrun & Hlen & _ & _ & _ & Hs' & Hc').
  exists rs, w'. auto.
Qed.

(** X2.  No sequence of opens, writes of at most one byte, releases,
    shows and stores changes which line the driver drives ([buzzer_gpio])
    or the level of any other line. *)
Theorem run_leaves_other_lines (cs : list call) (w : world) (g : Z) :
  lock (miscbuzzer w) = false ->
  forallb fits_databuf cs = true ->
  g <> buzzer_gpio (miscbuzzer w) ->
  exists rs w',
    run cs w = Some (rs, w')
    /\ buzzer_gpio (miscbuzzer w') = buzzer_gpio (miscbuzzer w)
    /\ pins w' !! g = pins w !! g.
Proof.
  intros Hl _ Hg.
  destruct (run_keeps cs w Hl) as (rs & w' & Hrun & _ & _ & Hg' & Hp' & _).
  exists rs, w'. auto.
Qed.

(* ===================================================================== *)
(** ** Beyond the claims: attachment and detachment                       *)
(* ===================================================================== *)

Lemma gpio_buzzer_remove_eq (gpio stats busy : Z) (lk : bool)
  (pn : gmap Z Z) (evs : list event) :
  gpio_buzzer_remove (MkWorld (MkDev gpio stats busy lk) pn evs)
  = Some (0, MkWorld (MkDev gpio BUZZEROFF busy lk)
                     (<[gpio := GPIO_HIGH]> pn)
                     (evs ++ [EvGpioSet gpio GPIO_HIGH;
                              EvBuzzerStats BUZZEROFF])).
Proof.
  unfold gpio_buzzer_remove. unfold_prims.
  cbn [miscbuzzer buzzer_gpio buzzer_stats dev_stats lock pins log].
  rewrite <- !app_assoc. reflexivity.
Qed.

(** The state a successful attachment leaves. *)
Lemma gpio_buzzer_probe_good_eq (g mr : Z) (ds : option string)
  (gpio stats busy : Z) (lk : bool) (pn : gmap Z Z) (evs : list event) :
  0 <= g ->
  0 <= mr ->
  gpio_buzzer_probe (MkPdev g mr 0 0 ds)
                    (MkWorld (MkDev gpio stats busy lk) pn evs)
  = Some (0,
          MkWorld (MkDev g stats DEV_FREE false)
                  (match ds with
                   | Some s =>
                       <[g := if String.eqb s "on"
                              then GPIO_LOW else GPIO_HIGH]>
                         (<[g := GPIO_OUTPUT]> pn)
                   | None => <[g := GPIO_OUTPUT]> pn
                   end)
                  (evs ++ [EvDevStats DEV_FREE; EvGpioDirOut g GPIO_OUTPUT]
                       ++ match ds with
                          | Some s =>
                              [EvGpioSet g (if String.eqb s "on"
                                            then GPIO_LOW else GPIO_HIGH)]
                          | None => []
                          end)).
Proof.
  intros Hg Hm. apply Z.ltb_ge in Hg, Hm.
  unfold gpio_buzzer_probe. unfold_prims.
  cbn [of_gpios misc_register_rc device_create_file_rc gpio_direction_rc
       of_default_state miscbuzzer buzzer_gpio buzzer_stats dev_stats lock
       pins log].
  rewrite Hg, Hm. cbn.
  destruct ds as [s |]; [destruct (String.eqb s "on") |];
    cbn; rewrite <- ?app_assoc; reflexivity.
Qed.

(** X3.  [gpio_buzzer_probe] answers 0 exactly when the line number is not
    negative, [misc_register] did not answer a negative code, and
    [device_create_file] and [gpio_direction_output] both answered 0.
    Otherwise it answers [-EINVAL] (exactly when the line number is
    negative) or [-EFAULT], and no line has been driven.  In every case
    [buzzer_gpio] holds what [of_get_named_gpio] answered, even a negative
    error code, and [buzzer_stats] is not written. *)
Theorem gpio_buzzer_probe_result (pdev : platform_device) (w : world) :
  exists r w',
    gpio_buzzer_probe pdev w = Some (r, w')
    /\ buzzer_gpio (miscbuzzer w') = of_gpios pdev
    /\ buzzer_stats (miscbuzzer w') = buzzer_stats (miscbuzzer w)
    /\ (r = 0 <-> 0 <= of_gpios pdev
                  /\ 0 <= misc_register_rc pdev
                  /\ device_create_file_rc pdev = 0
                  /\ gpio_direction_rc pdev = 0)
    /\ (r = - EINVAL <-> of_gpios pdev < 0)
    /\ (r <> 0 -> (r = - EINVAL \/ r = - EFAULT) /\ pins w' = pins w).
Proof.
  destruct pdev as [g mr cf dr ds]. open_world w.
  unfold gpio_buzzer_probe. unfold_prims.
  cbn [of_gpios misc_register_rc device_create_file_rc gpio_direction_rc
       of_default_state miscbuzzer buzzer_gpio buzzer_stats dev_stats lock
       pins log].
  unfold EINVAL, EFAULT.
  destruct (g <? 0) eqn:Eg;
    [apply Z.ltb_lt in Eg | apply Z.ltb_ge in Eg].
  { do 2 eexists; split; [reflexivity |]. fields.
    repeat split; intros; try lia; auto. }
  destruct (mr <? 0) eqn:Em;
    [apply Z.ltb_lt in Em | apply Z.ltb_ge in Em].
  { do 2 eexists; split; [reflexivity |]. fields.
    repeat split; intros; try lia; auto. }
  destruct (cf =? 0) eqn:Ec;
    [apply Z.eqb_eq in Ec | apply Z.eqb_neq in Ec]; cbn [negb].
  2: { do 2 eexists; split; [reflexivity |]. fields.
       repeat split; intros; try lia; auto. }
  destruct (dr =? 0) eqn:Ed;
    [apply Z.eqb_eq in Ed | apply Z.eqb_neq in Ed]; cbn [negb].
  2: { rewrite (proj2 (Z.eqb_neq dr 0) Ed). cbn [negb].
       do 2 eexists; split; [reflexivity |]. fields.
       repeat split; intros; try lia; auto. }
  subst dr. cbn [Z.eqb negb].
  destruct ds as [s |]; [destruct (String.eqb s "on") |];
    do 2 eexists; (split; [reflexivity |]); fields;
    repeat split; intros; try lia; auto.
Qed.

(** X4.  When all platform calls succeed, [gpio_buzzer_probe] answers 0
    and leaves [dev_stats] free and the lock initialised, whatever they
    were.  The line is low when ["default-state"] is ["on"], high for any
    other text, and at the level [GPIO_OUTPUT] (1, that is high) passed to
    [gpio_direction_output] when the property is absent; no other line is
    touched and [buzzer_stats] keeps its old value. *)
Theorem gpio_buzzer_probe_success (pdev : platform_device) (w : world) :
  0 <= of_gpios pdev ->
  0 <= misc_register_rc pdev ->
  device_create_file_rc pdev = 0 ->
  gpio_direction_rc pdev = 0 ->
  exists w',
    gpio_buzzer_probe pdev w = Some (0, w')
    /\ dev_stats (miscbuzzer w') = DEV_FREE
    /\ lock (miscbuzzer w') = false
    /\ buzzer_stats (miscbuzzer w') = buzzer_stats (miscbuzzer w)
    /\ line w'
       = Some (match of_default_state pdev with
               | Some s => if String.eqb s "on" then GPIO_LOW else GPIO_HIGH
               | None => GPIO_OUTPUT
               end)
    /\ (forall g : Z, g <> of_gpios pdev -> pins w' !! g = pins w !! g).
Proof.
  destruct pdev as [g mr cf dr ds]. open_world w.
  cbn [of_gpios misc_register_rc device_create_file_rc gpio_direction_rc
       of_default_state].
  intros Hg Hm -> ->.
  rewrite gpio_buzzer_probe_good_eq by assumption.
  unfold line.
  eexists; (split; [reflexivity |]); fields.
  destruct ds as [s |];
    repeat split; intros;
    rewrite ?lookup_insert_eq, ?lookup_insert_ne by congruence;
    reflexivity.
Qed.

(** X5.  [gpio_buzzer_remove] always answers 0, drives the buzzer's line
    high and sets [buzzer_stats] to OFF, without taking the lock.  It does
    not write [dev_stats]: a session held at detachment stays marked busy.
    [buzzer_gpio] and the other lines are unchanged. *)
Theorem gpio_buzzer_remove_forces_off (w : world) :
  exists w',
    gpio_buzzer_remove w = Some (0, w')
    /\ buzzer_stats (miscbuzzer w') = BUZZEROFF
    /\ line w' = Some GPIO_HIGH
    /\ dev_stats (miscbuzzer w') = dev_stats (miscbuzzer w)
    /\ lock (miscbuzzer w') = lock (miscbuzzer w)
    /\ buzzer_gpio (miscbuzzer w') = buzzer_gpio (miscbuzzer w)
    /\ (forall g : Z, g <> buzzer_gpio (miscbuzzer w) ->
                      pins w' !! g = pins w !! g)
    /\ lock_free (emitted w w') = true.
Proof.
  open_world w. rewrite gpio_buzzer_remove_eq. unfold line.
  eexists; split; [reflexivity |]. fields. rewrite emitted_app.
  repeat split; intros;
    rewrite ?lookup_insert_eq, ?lookup_insert_ne by congruence;
    reflexivity.
Qed.

(** X6.  Detach then attach again (all platform calls succeeding,
    ["default-state"] absent or different from ["on"]): whatever the state
    before, even with a session still marked busy, the device comes back
    with status OFF, its line high in agreement with the status,
    [dev_stats] free and the lock free. *)
Theorem remove_then_probe_clean (pdev : platform_device) (w : world) :
  0 <= of_gpios pdev ->
  0 <= misc_register_rc pdev ->
  device_create_file_rc pdev = 0 ->
  gpio_direction_rc pdev = 0 ->
  of_default_state pdev <> Some "on"%string ->
  exists w',
    (gpio_buzzer_remove ;; gpio_buzzer_probe pdev) w = Some (0, w')
    /\ buzzer_stats (miscbuzzer w') = BUZZEROFF
    /\ line w' = Some (level_of (buzzer_stats (miscbuzzer w')))
    /\ dev_stats (miscbuzzer w') = DEV_FREE
    /\ lock (miscbuzzer w') = false.
Proof.
  destruct pdev as [g mr cf dr ds]. open_world w.
  cbn [of_gpios misc_register_rc device_create_file_rc gpio_direction_rc
       of_default_state].
  intros Hg Hm -> -> Hs.
  unfold Bind at 1. rewrite gpio_buzzer_remove_eq.
  rewrite gpio_buzzer_probe_good_eq by assumption.
  unfold line.
  eexists; (split; [reflexivity |]); fields.
  repeat split.
  destruct ds as [s |]; [| apply lookup_insert_eq].
  destruct (String.eqb_spec s "on") as [-> | _];
    [contradiction Hs; reflexivity | apply lookup_insert_eq].
Qed.

(* ===================================================================== *)
(** ** Beyond the claims: commanding and reading back                     *)
(* ===================================================================== *)

(** X7.  With the lock free, no session held and a status of 0 or 1,
    [buzzer_show] yields two bytes of text, and storing exactly that text
    is accepted: it returns the two bytes as consumed, leaves
    [buzzer_stats] as it was and drives the line to the level that goes
    with it. *)
Theorem buzzer_show_store_round_trip (w : world) (state0 : Z) :
  lock (miscbuzzer w) = false ->
  dev_stats (miscbuzzer w) <> DEV_BUSY ->
  buzzer_stats (miscbuzzer w) = BUZZEROFF
  \/ buzzer_stats (miscbuzzer w) = BUZZERON ->
  exists txt w',
    buzzer_show w = Some ((2, txt), w)
    /\ buzzer_store txt 2 state0 w = Some (2, w')
    /\ buzzer_stats (miscbuzzer w') = buzzer_stats (miscbuzzer w)
    /\ line w' = Some (level_of (buzzer_stats (miscbuzzer w)))
    /\ dev_stats (miscbuzzer w') = DEV_FREE.
Proof.
  open_world w. intros -> Hb [-> | ->].
  - exists (String "0" (String "010" EmptyString)).
    rewrite buzzer_store_off by first [exact Hb | reflexivity].
    eexists; split; [reflexivity |]. split; [reflexivity |].
    unfold line. fields. repeat split. apply lookup_insert_eq.
  - exists (String "1" (String "010" EmptyString)).
    rewrite buzzer_store_on by first [exact Hb | reflexivity].
    eexists; split; [reflexivity |]. split; [reflexivity |].
    unfold line. fields. repeat split. apply lookup_insert_eq.
Qed.

(** X8.  With the lock free and no session held, storing a text that
    [kstrtoul] reads as 0 or 1 and then showing the attribute yields two
    bytes: that digit and a newline. *)
Theorem buzzer_store_then_show (w : world) (buf : string)
  (size state0 n : Z) :
  lock (miscbuzzer w) = false ->
  dev_stats (miscbuzzer w) <> DEV_BUSY ->
  kstrtoul buf 10 = (0, Some n) ->
  n = BUZZEROFF \/ n = BUZZERON ->
  exists w',
    (buzzer_store buf size state0 ;; buzzer_show) w
    = Some ((2, String (if n =? BUZZERON then "1"%char else "0"%char)
                       (String "010" EmptyString)), w')
    /\ buzzer_stats (miscbuzzer w') = n.
Proof.
  open_world w. intros -> Hb Hk [-> | ->]; unfold Bind at 1.
  - rewrite buzzer_store_off by first [exact Hb | rewrite Hk; reflexivity].
    eexists; split; reflexivity.
  - rewrite buzzer_store_on by first [exact Hb | rewrite Hk; reflexivity].
    eexists; split; reflexivity.
Qed.

(** X9.  A one-byte session write of 0 or 1 from a readable buffer,
    followed by a show of the attribute, yields two bytes: that digit and
    a newline. *)
Theorem miscbuzzer_write_then_show (w : world) (b : byte)
  (rest : list byte) (databuf0 : byte) :
  b = x00 \/ b = x01 ->
  exists w',
    (miscbuzzer_write (b :: rest) 1 databuf0 ;; buzzer_show) w
    = Some ((2, String (if uchar b =? BUZZERON then "1"%char else "0"%char)
                       (String "010" EmptyString)), w')
    /\ buzzer_stats (miscbuzzer w') = uchar b.
Proof.
  open_world w.
  assert (Hn : 0 <= to_int (fst (copy_from_user databuf0 (b :: rest) 1)))
    by (rewrite copy_one_byte; cbn [fst];
        rewrite to_int_small; unfold INT_MAX; lia).
  assert (Hd : uchar (snd (copy_from_user databuf0 (b :: rest) 1)) = uchar b)
    by (rewrite copy_one_byte; reflexivity).
  intros [-> | ->]; unfold Bind at 1.
  - rewrite miscbuzzer_write_off
      by first [exact Hn | rewrite Hd; reflexivity].
    eexists; split; reflexivity.
  - rewrite miscbuzzer_write_on
      by first [exact Hn | rewrite Hd; reflexivity].
    eexists; split; reflexivity.
Qed.

(** X10.  From a state where the line agrees with a status of 0 or 1,
    after any sequence of calls (its writes being of at most one byte) the
    text shown tells the level of the line: ["1"] and a newline with the
    line low, or ["0"] and a newline with the line high. *)
Theorem buzzer_show_reports_line (cs : list call) (w : world) :
  lock (miscbuzzer w) = false ->
  forallb fits_databuf cs = true ->
  buzzer_stats (miscbuzzer w) = BUZZEROFF
  \/ buzzer_stats (miscbuzzer w) = BUZZERON ->
  line w = Some (level_of (buzzer_stats (miscbuzzer w))) ->
  exists txt w',
    (run cs ;; buzzer_show) w = Some ((2, txt), w')
    /\ ((txt = String "1" (String "010" EmptyString)
         /\ line w' = Some GPIO_LOW)
        \/ (txt = String "0" (String "010" EmptyString)
            /\ line w' = Some GPIO_HIGH)).
Proof.
  intros Hl _ Hs Hc.
  destruct (run_keeps cs w Hl)
    as (rs & w' & Hrun & _ & _ & _ & _ & Hs' & Hc').
  specialize (Hs' Hs). specialize (Hc' Hc).
  unfold Bind at 1. rewrite Hrun.
  destruct w' as [[g' s' d' l'] p' e']. unfold line in *. fields.
  destruct Hs' as [-> | ->].
  - do 2 eexists; split; [reflexivity |]. right. auto.
  - do 2 eexists; split; [reflexivity |]. left. auto.
Qed.

(** X11.  A write of zero bytes copies nothing, yet the ON/OFF branch
    still runs: whatever the user buffer, the call behaves exactly as a
    one-byte write of the byte [databuf[0]] happened to hold on entry. *)
Theorem miscbuzzer_write_zero_length (buf : list byte) (databuf0 : byte)
  (w : world) :
  miscbuzzer_write buf 0 databuf0 w = miscbuzzer_write [databuf0] 1 x00 w.
Proof.
  unfold miscbuzzer_write, copy_from_user.
  rewrite Z.min_l by lia. reflexivity.
Qed.

(** X12.  Opens, releases and shows never actuate anything: a sequence
    made only of these calls leaves [buzzer_stats] and the level of every
    line exactly as they were, whether the opens succeed or not. *)
Theorem session_control_never_actuates (cs : list call) :
  forall w : world,
    lock (miscbuzzer w) = false ->
    forallb (fun c => match c with
                      | CallOpen | CallRelease | CallShow => true
                      | _ => false
                      end) cs = true ->
    exists rs w',
      run cs w = Some (rs, w')
      /\ buzzer_stats (miscbuzzer w') = buzzer_stats (miscbuzzer w)
      /\ pins w' = pins w.
Proof.
  induction cs as [| c cs IH]; intros w Hl Hc.
  - exists [], w. cbn. auto.
  - cbn [forallb] in Hc. apply andb_prop in Hc as [Hc1 Hc2].
    assert (Hstep : exists r w1,
               exec c w = Some (r, w1)
               /\ lock (miscbuzzer w1) = false
               /\ buzzer_stats (miscbuzzer w1) = buzzer_stats (miscbuzzer w)
               /\ pins w1 = pins w).
    { destruct c as [| buf cnt d0 | | | buf size state0];
        try discriminate Hc1; cbn [exec]; open_world w; subst lk.
      - destruct (Z.eq_dec busy DEV_BUSY) as [Hb | Hb];
          [rewrite miscbuzzer_open_busy by exact Hb
          | rewrite miscbuzzer_open_free by exact Hb];
          do 2 eexists; (split; [reflexivity |]); fields; auto.
      - destruct (Z.eq_dec busy DEV_BUSY) as [Hb | Hb];
          [rewrite miscbuzzer_release_busy by exact Hb
          | rewrite miscbuzzer_release_free by exact Hb];
          do 2 eexists; (split; [reflexivity |]); fields; auto.
      - unfold buzzer_show. unfold_prims.
        do 2 eexists; (split; [reflexivity |]); fields; auto. }
    destruct Hstep as (r & w1 & He & Hl1 & Hs1 & Hp1).
    destruct (IH w1 Hl1 Hc2) as (rs & w' & Hrun & Hs' & Hp').
    exists (r :: rs), w'. split.
    + cbn [run]. unfold Bind at 1. rewrite He.
      unfold Bind at 1. rewrite Hrun. reflexivity.
    + split; congruence.
Qed.

(** X13.  For the writes that fit [databuf] (zero bytes or one byte) the
    [-EFAULT] branch cannot be reached: whatever the user buffer, readable
    or not, and whatever the state, [miscbuzzer_write] answers 0. *)
Theorem miscbuzzer_write_efault_unreachable (w : world) (buf : list byte)
  (cnt : Z) (databuf0 : byte) :
  cnt = 0 \/ cnt = 1 ->
  exists w', miscbuzzer_write buf cnt databuf0 w = Some (0, w').
Proof.
  intros Hc. apply miscbuzzer_write_never_efault.
  unfold INT_MAX. lia.
Qed.

(* ===================================================================== *)
(** ** Beyond the claims: the theorems at concrete inputs                 *)
(* ===================================================================== *)

(** X1 on the fresh device with its line driven high, for a store of
    ["1"] followed by a session write of 0. *)
Lemma run_keeps_status_and_line_witness :
  lock (miscbuzzer (MkWorld miscbuzzer_zero (<[0 := GPIO_HIGH]> ∅) []))
  = false
  /\ (buzzer_stats
        (miscbuzzer (MkWorld miscbuzzer_zero (<[0 := GPIO_HIGH]> ∅) []))
      = BUZZEROFF
      \/ buzzer_stats
           (miscbuzzer (MkWorld miscbuzzer_zero (<[0 := GPIO_HIGH]> ∅) []))
         = BUZZERON)
  /\ line (MkWorld miscbuzzer_zero (<[0 := GPIO_HIGH]> ∅) [])
     = Some (level_of
               (buzzer_stats
                  (miscbuzzer
                     (MkWorld miscbuzzer_zero (<[0 := GPIO_HIGH]> ∅) []))))
  /\ forallb fits_databuf
       [CallStore "1" 1 0; CallOpen; CallWrite [x00] 1 x00] = true
  /\ exists rs w',
       run [CallStore "1" 1 0; CallOpen; CallWrite [x00] 1 x00]
           (MkWorld miscbuzzer_zero (<[0 := GPIO_HIGH]> ∅) [])
       = Some (rs, w')
       /\ line w' = Some (level_of (buzzer_stats (miscbuzzer w'))).
Proof.
  assert (Hc : line (MkWorld miscbuzzer_zero (<[0 := GPIO_HIGH]> ∅) [])
               = Some (level_of
                         (buzzer_stats
                            (miscbuzzer
                               (MkWorld miscbuzzer_zero
                                        (<[0 := GPIO_HIGH]> ∅) [])))))
    by reflexivity.
  split; [reflexivity |]. split; [left; reflexivity |].
  split; [exact Hc |]. split; [reflexivity |].
  destruct (run_keeps_status_and_line
              [CallStore "1" 1 0; CallOpen; CallWrite [x00] 1 x00]
              (MkWorld miscbuzzer_zero (<[0 := GPIO_HIGH]> ∅) [])
              eq_refl eq_refl (or_introl eq_refl) Hc)
    as (rs & w' & Hrun & _ & _ & Hc').
  exists rs, w'. auto.
Defined.

(** X2 on the fresh device and line 7. *)
Lemma run_leaves_other_lines_witness :
  lock (miscbuzzer (MkWorld miscbuzzer_zero (<[7 := GPIO_LOW]> ∅) []))
  = false
  /\ 7 <> buzzer_gpio
            (miscbuzzer (MkWorld miscbuzzer_zero (<[7 := GPIO_LOW]> ∅) []))
  /\ forallb fits_databuf [CallStore "1" 1 0; CallWrite [x00] 1 x00] = true
  /\ exists rs w',
       run [CallStore "1" 1 0; CallWrite [x00] 1 x00]
           (MkWorld miscbuzzer_zero (<[7 := GPIO_LOW]> ∅) [])
       = Some (rs, w')
       /\ pins w' !! 7 = Some GPIO_LOW.
Proof.
  assert (Hg : 7 <> buzzer_gpio
                      (miscbuzzer
                         (MkWorld miscbuzzer_zero (<[7 := GPIO_LOW]> ∅) [])))
    by (vm_compute; discriminate).
  split; [reflexivity |]. split; [exact Hg |]. split; [reflexivity |].
  destruct (run_leaves_other_lines
              [CallStore "1" 1 0; CallWrite [x00] 1 x00]
              (MkWorld miscbuzzer_zero (<[7 := GPIO_LOW]> ∅) []) 7
              eq_refl eq_refl Hg)
    as (rs & w' & Hrun & _ & Hp).
  exists rs, w'. split; [exact Hrun |]. rewrite Hp. reflexivity.
Defined.

(** X4 on line 5 with ["default-state"] equal to ["off"]. *)
Lemma gpio_buzzer_probe_success_witness :
  0 <= of_gpios (MkPdev 5 0 0 0 (Some "off"%string))
  /\ 0 <= misc_register_rc (MkPdev 5 0 0 0 (Some "off"%string))
  /\ device_create_file_rc (MkPdev 5 0 0 0 (Some "off"%string)) = 0
  /\ gpio_direction_rc (MkPdev 5 0 0 0 (Some "off"%string)) = 0
  /\ exists w',
       gpio_buzzer_probe (MkPdev 5 0 0 0 (Some "off"%string)) boot
       = Some (0, w')
       /\ line w' = Some GPIO_HIGH.
Proof.
  assert (Hg : 0 <= of_gpios (MkPdev 5 0 0 0 (Some "off"%string)))
    by (cbn; lia).
  assert (Hm : 0 <= misc_register_rc (MkPdev 5 0 0 0 (Some "off"%string)))
    by (cbn; lia).
  split; [exact Hg |]. split; [exact Hm |].
  split; [reflexivity |]. split; [reflexivity |].
  destruct (gpio_buzzer_probe_success
              (MkPdev 5 0 0 0 (Some "off"%string)) boot
              Hg Hm eq_refl eq_refl)
    as (w' & Hp & _ & _ & _ & Hline & _).
  exists w'. auto.
Defined.

(** X6 from a device that is ON with a session held, back on line 5. *)
Lemma remove_then_probe_clean_witness :
  0 <= of_gpios (MkPdev 5 0 0 0 None)
  /\ 0 <= misc_register_rc (MkPdev 5 0 0 0 None)
  /\ device_create_file_rc (MkPdev 5 0 0 0 None) = 0
  /\ gpio_direction_rc (MkPdev 5 0 0 0 None) = 0
  /\ of_default_state (MkPdev 5 0 0 0 None) <> Some "on"%string
  /\ exists w',
       (gpio_buzzer_remove ;; gpio_buzzer_probe (MkPdev 5 0 0 0 None))
         (MkWorld (MkDev 5 BUZZERON DEV_BUSY false) (<[5 := GPIO_LOW]> ∅) [])
       = Some (0, w')
       /\ buzzer_stats (miscbuzzer w') = BUZZEROFF
       /\ dev_stats (miscbuzzer w') = DEV_FREE.
Proof.
  assert (Hg : 0 <= of_gpios (MkPdev 5 0 0 0 None)) by (cbn; lia).
  assert (Hm : 0 <= misc_register_rc (MkPdev 5 0 0 0 None)) by (cbn; lia).
  assert (Hs : of_default_state (MkPdev 5 0 0 0 None) <> Some "on"%string)
    by discriminate.
  split; [exact Hg |]. split; [exact Hm |].
  split; [reflexivity |]. split; [reflexivity |]. split; [exact Hs |].
  destruct (remove_then_probe_clean
              (MkPdev 5 0 0 0 None)
              (MkWorld (MkDev 5 BUZZERON DEV_BUSY false)
                       (<[5 := GPIO_LOW]> ∅) [])
              Hg Hm eq_refl eq_refl Hs)
    as (w' & Hp & Hst & _ & Hf & _).
  exists w'. auto.
Defined.

(** X7 on the fresh device. *)
Lemma buzzer_show_store_round_trip_witness :
  lock (miscbuzzer boot) = false
  /\ dev_stats (miscbuzzer boot) <> DEV_BUSY
  /\ (buzzer_stats (miscbuzzer boot) = BUZZEROFF
      \/ buzzer_stats (miscbuzzer boot) = BUZZERON)
  /\ exists txt w',
       buzzer_show boot = Some ((2, txt), boot)
       /\ buzzer_store txt 2 9 boot = Some (2, w')
       /\ buzzer_stats (miscbuzzer w') = buzzer_stats (miscbuzzer boot).
Proof.
  assert (Hd : dev_stats (miscbuzzer boot) <> DEV_BUSY)
    by (vm_compute; discriminate).
  split; [reflexivity |]. split; [exact Hd |].
  split; [left; reflexivity |].
  destruct (buzzer_show_store_round_trip boot 9
              eq_refl Hd (or_introl eq_refl))
    as (txt & w' & Hshow & Hstore & Hst & _).
  exists txt, w'. auto.
Defined.

(** X8 on the text ["+1"]. *)
Lemma buzzer_store_then_show_witness :
  lock (miscbuzzer boot) = false
  /\ dev_stats (miscbuzzer boot) <> DEV_BUSY
  /\ kstrtoul "+1" 10 = (0, Some 1)
  /\ (1 = BUZZEROFF \/ 1 = BUZZERON)
  /\ exists w',
       (buzzer_store "+1" 2 0 ;; buzzer_show) boot
       = Some ((2, String "1" (String "010" EmptyString)), w').
Proof.
  assert (Hd : dev_stats (miscbuzzer boot) <> DEV_BUSY)
    by (vm_compute; discriminate).
  split; [reflexivity |]. split; [exact Hd |].
  split; [reflexivity |]. split; [right; reflexivity |].
  destruct (buzzer_store_then_show boot "+1" 2 0 1
              eq_refl Hd eq_refl (or_intror eq_refl))
    as (w' & Hw & _).
  exists w'. exact Hw.
Defined.

(** X9 on the byte 1. *)
Lemma miscbuzzer_write_then_show_witness :
  (x01 = x00 \/ x01 = x01)
  /\ exists w',
       (miscbuzzer_write [x01] 1 x00 ;; buzzer_show) boot
       = Some ((2, String "1" (String "010" EmptyString)), w').
Proof.
  split; [right; reflexivity |].
  destruct (miscbuzzer_write_then_show boot x01 [] x00
              (or_intror eq_refl))
    as (w' & Hw & _).
  exists w'. exact Hw.
Defined.

(** X10 on the fresh device with its line driven high, after a store of
    ["1"] and a one-byte session write of 0. *)
Lemma buzzer_show_reports_line_witness :
  lock (miscbuzzer (MkWorld miscbuzzer_zero (<[0 := GPIO_HIGH]> ∅) []))
  = false
  /\ (buzzer_stats
        (miscbuzzer (MkWorld miscbuzzer_zero (<[0 := GPIO_HIGH]> ∅) []))
      = BUZZEROFF
      \/ buzzer_stats
           (miscbuzzer (MkWorld miscbuzzer_zero (<[0 := GPIO_HIGH]> ∅) []))
         = BUZZERON)
  /\ line (MkWorld miscbuzzer_zero (<[0 := GPIO_HIGH]> ∅) [])
     = Some (level_of
               (buzzer_stats
                  (miscbuzzer
                     (MkWorld miscbuzzer_zero (<[0 := GPIO_HIGH]> ∅) []))))
  /\ forallb fits_databuf [CallStore "1" 1 0; CallWrite [x00] 1 x00] = true
  /\ exists txt w',
       (run [CallStore "1" 1 0; CallWrite [x00] 1 x00] ;; buzzer_show)
         (MkWorld miscbuzzer_zero (<[0 := GPIO_HIGH]> ∅) [])
       = Some ((2, txt), w').
Proof.
  assert (Hc : line (MkWorld miscbuzzer_zero (<[0 := GPIO_HIGH]> ∅) [])
               = Some (level_of
                         (buzzer_stats
                            (miscbuzzer
                               (MkWorld miscbuzzer_zero
                                        (<[0 := GPIO_HIGH]> ∅) [])))))
    by reflexivity.
  split; [reflexivity |]. split; [left; reflexivity |].
  split; [exact Hc |]. split; [reflexivity |].
  destruct (buzzer_show_reports_line
              [CallStore "1" 1 0; CallWrite [x00] 1 x00]
              (MkWorld miscbuzzer_zero (<[0 := GPIO_HIGH]> ∅) [])
              eq_refl eq_refl (or_introl eq_refl) Hc)
    as (txt & w' & Hw & _).
  exists txt, w'. exact Hw.
Defined.

(** X12 on open, show, open, release from a device that is ON. *)
Lemma session_control_never_actuates_witness :
  lock (miscbuzzer (MkWorld (MkDev 5 BUZZERON DEV_FREE false)
                            (<[5 := GPIO_LOW]> ∅) []))
  = false
  /\ exists rs w',
       run [CallOpen; CallShow; CallOpen; CallRelease]
           (MkWorld (MkDev 5 BUZZERON DEV_FREE false)
                    (<[5 := GPIO_LOW]> ∅) [])
       = Some (rs, w')
       /\ buzzer_stats (miscbuzzer w') = BUZZERON
       /\ pins w' = <[5 := GPIO_LOW]> ∅.
Proof.
  split; [reflexivity |].
  destruct (session_control_never_actuates
              [CallOpen; CallShow; CallOpen; CallRelease]
              (MkWorld (MkDev 5 BUZZERON DEV_FREE false)
                       (<[5 := GPIO_LOW]> ∅) [])
              eq_refl eq_refl)
    as (rs & w' & Hrun & Hs & Hp).
  exists rs, w'. auto.
Defined.

(** X13 on a one-byte write from an unreadable buffer. *)
Lemma miscbuzzer_write_efault_unreachable_witness :
  (1 = 0 \/ 1 = 1)
  /\ fst (copy_from_user x00 [] 1) = 1
  /\ exists w', miscbuzzer_write [] 1 x00 boot = Some (0, w').
Proof.
  split; [right; reflexivity |]. split; [reflexivity |].
  exact (miscbuzzer_write_efault_unreachable boot [] 1 x00
           (or_intror eq_refl)).
Defined.
